(** * Research-and-action workflow: progress relay and issue creation

    A shallow embedding of the Express handler [POST /research-and-action]
    (server/routes/api.ts), of its server-sent-events relay
    ([sseClients], [sendSSEUpdate], [GET /sse/:sessionId]) and of
    [PicaService.createGitHubIssue] (server/services/pica.ts).

    JavaScript exceptions are completions [Raise e]; the mutable module
    state ([sseClients]), the wall clock and an observation log of the
    published events and collaborator calls are threaded through a small
    state-and-exception monad.  Everything the handler only calls (the OpenAI
    service, the axios client behind Pica, [JSON.stringify], [Date]) is a
    field of the environment record [Env]. *)

From Stdlib Require Import ZArith List String Ascii Bool Lia.
From stdpp Require Import base strings gmap list pretty.

Local Open Scope Z_scope.

(** ** Data model (server/types/index.ts) *)

Inductive ResearchStatus := Pending | Completed | Failed.

Inductive ActionType := GithubIssue | Email | SheetUpdate | SlackMessage.

(** The [result] payload of a GitHub issue action. *)
Record IssueResult := {
  issueNumber : Z;
  issueUrl : string;
  ir_title : string;
  repository : string
}.

Record ActionResult := {
  ar_type : ActionType;
  ar_platform : string;
  ar_success : bool;
  ar_result : option IssueResult;
  ar_error : option string;
  ar_timestamp : string
}.

Record ResearchQuery := {
  rq_query : string;
  rq_userId : option string;
  rq_sessionId : option string
}.

Record ResearchResult := {
  rr_id : string;
  rr_query : string;
  rr_findings : string;
  rr_actions : list ActionResult;
  rr_timestamp : string;
  rr_status : ResearchStatus
}.

Inductive SSEType :=
  TStatus | TProgress | TResult | TError | THeartbeat | TConnected | TComplete.

Inductive SSEStep := Analyzing | Researching | Planning | Executing | StepComplete.

Record SSEResult := {
  sr_research : ResearchResult;
  sr_actions : list ActionResult
}.

Record SSEMessage := {
  sse_type : SSEType;
  sse_step : option SSEStep;
  sse_message : option string;
  sse_result : option SSEResult;
  sse_timestamp : string
}.

Record PicaConfig := {
  secret : string;
  serverUrl : option string
}.

Record GitHubIssueParams := {
  gp_title : string;
  gp_body : string;
  gp_owner : string;
  gp_repo : string
}.

(** The [{title, body}] pair returned by [generateGitHubIssueContent]. *)
Record IssueContent := {
  ic_title : string;
  ic_body : string
}.

(** ** JavaScript values the code inspects *)

(** [error.response] of an axios error. *)
Record ErrorResponse := {
  er_status : Z;
  er_data_message : option string;
  er_statusText : string
}.

(** A thrown value, seen through the three properties the catch blocks
    read: [error.message], [error.response] and [error.request]. *)
Record JsError := {
  err_message : string;
  err_response : option ErrorResponse;
  err_request : bool
}.

(** [new Error(msg)] *)
Definition Error (msg : string) : JsError :=
  {| err_message := msg; err_response := None; err_request := false |}.

Inductive Completion (A : Type) :=
| Return (a : A)
| Raise (e : JsError).
Arguments Return {A} a.
Arguments Raise {A} e.

(** Truthiness of an optional string: [undefined] and [""] are falsy. *)
Definition truthy (s : option string) : bool :=
  match s with
  | Some (String _ _) => true
  | _ => false
  end.

(** [`${x}`] for an optional string. *)
Definition template (s : option string) : string := default "undefined" s.

Definition LF : string := String (ascii_of_nat 10) EmptyString.

(** ** Requests and responses of the handler *)

(** [req.body] after [express.json()]. *)
Record RequestBody := {
  body_query : option string;
  body_sessionId : option string;
  body_githubRepo : option string
}.

Record Summary := {
  sm_query : string;
  researchCompleted : bool;
  actionsExecuted : nat;
  successfulActions : nat;
  githubIssueUrl : option string
}.

Record SuccessBody := {
  sb_success : bool;
  sb_sessionId : string;
  sb_research : ResearchResult;
  sb_actions : list ActionResult;
  sb_summary : Summary
}.

Record ErrorBody := {
  eb_success : bool;
  eb_error : string;
  eb_details : string;
  eb_timestamp : string
}.

Inductive JsonBody :=
| ValidationJson (error details : string)
| SuccessJson (b : SuccessBody)
| ErrorJson (b : ErrorBody).

(** [res.status(code).json(body)]; [res.json(body)] has status 200. *)
Record HttpResponse := {
  http_status : Z;
  http_body : JsonBody
}.

(** ** The axios client behind Pica *)

Record ConnectionRow := {
  row_key : string;
  row_platform : string
}.

(** [response.data] of [GET /vault/connections?platform=github]. *)
Record ConnectionsData := {
  rows : option (list ConnectionRow)
}.

Record IssueData := {
  id_title : string;
  id_body : string;
  id_labels : list string
}.

(** [response.data] of the passthrough issue creation. *)
Record CreatedIssue := {
  html_url : string;
  number : Z
}.

Record GitHubConnection := {
  connectionKey : string;
  platform : string
}.

(** ** Collaborators and runtime, as parameters *)

(** The service object returned by [createOpenAIService()].  Its module,
    server/services/openai.ts, is outside the sources at hand, so the two
    operations the handler awaits are parameters; either may resolve or
    reject. *)
Record OpenAIService := {
  generateResearch : ResearchQuery -> Completion ResearchResult;
  generateGitHubIssueContent : string -> string -> Completion IssueContent
}.

Record Env := {
  (** [Date.now()] at the n-th reading of the clock *)
  env_now : nat -> Z;
  (** [Date.prototype.toISOString] *)
  env_toISOString : Z -> string;
  env_JSON_stringify : SSEMessage -> string;
  (** [process.env.PICA_SECRET] *)
  env_PICA_SECRET : option string;
  env_createOpenAIService : Completion OpenAIService;
  (** [client.get(url)] with the [x-pica-secret] header *)
  env_client_get : string -> string -> Completion ConnectionsData;
  (** [client.post(url, data, {headers: x-pica-connection-key})] *)
  env_client_post : string -> string -> IssueData -> string -> Completion CreatedIssue
}.

(** ** Mutable state *)

(** An Express response used as an event stream.  [write] on a stream that
    is no longer writable delivers nothing; Node reports that through the
    return value and the stream's error event, not by raising. *)
Record Response := {
  res_writable : bool;
  res_written : list string
}.

Definition write (res : Response) (chunk : string) : Response * bool :=
  if res_writable res
  then ({| res_writable := true; res_written := res_written res ++ [chunk] |}, true)
  else (res, false).

(** What a run does that an observer outside the handler can count:
    calls of [sendSSEUpdate] and completed collaborator calls. *)
Inductive Effect :=
| Published (sessionId : string) (data : SSEMessage)
| Researched (q : ResearchQuery) (r : Completion ResearchResult)
| Formatted (findings query : string) (r : Completion IssueContent)
| IssueCreation (params : GitHubIssueParams) (r : Completion ActionResult).

Record World := {
  sseClients : gmap string Response;
  clock : nat;
  trace : list Effect
}.

Definition M (A : Type) : Type := World -> Completion A * World.

Definition ret {A} (a : A) : M A := fun w => (Return a, w).

Definition throw {A} (e : JsError) : M A := fun w => (Raise e, w).

Definition bind {A B} (m : M A) (k : A -> M B) : M B :=
  fun w =>
    match m w with
    | (Return a, w') => k a w'
    | (Raise e, w') => (Raise e, w')
    end.

(** [try { m } catch (error) { h error }] *)
Definition try_catch {A} (m : M A) (h : JsError -> M A) : M A :=
  fun w =>
    match m w with
    | (Return a, w') => (Return a, w')
    | (Raise e, w') => h e w'
    end.

(** [await p] for a promise that is already settled. *)
Definition await {A} (c : Completion A) : M A := fun w => (c, w).

Notation "'let*' x ':=' m 'in' k" := (bind m (fun x => k))
  (at level 10, x name, m at level 100, k at level 200).
Notation "'do' m 'then' k" := (bind m (fun _ => k))
  (at level 10, m at level 100, k at level 200).

Definition log (e : Effect) (w : World) : World :=
  {| sseClients := sseClients w; clock := clock w; trace := trace w ++ [e] |}.

(** Run [m] and record its completion. *)
Definition observed {A} (mk : Completion A -> Effect) (m : M A) : M A :=
  fun w => let '(r, w') := m w in (r, log (mk r) w').

Definition effects_since (w w' : World) : list Effect :=
  drop (length (trace w)) (trace w').

Definition tick (w : World) : World :=
  {| sseClients := sseClients w; clock := S (clock w); trace := trace w |}.

Definition set_clients (c : gmap string Response) (w : World) : World :=
  {| sseClients := c; clock := clock w; trace := trace w |}.

(** JavaScript's [s.split("/")]: the segments between the separators, in
    order; a string without a separator is a single segment. *)
Fixpoint split_slash (s : string) : list string :=
  match s with
  | EmptyString => [EmptyString]
  | String c rest =>
      if Ascii.eqb c "/"%char then EmptyString :: split_slash rest
      else match split_slash rest with
           | seg :: segs => String c seg :: segs
           | [] => [String c EmptyString]
           end
  end.

(** [x = a || b] on strings, where [a] may be undefined. *)
Definition or_else (a : option string) (b : string) : string :=
  match a with
  | Some (String _ _ as s) => s
  | _ => b
  end.

Section Workflow.

Variable env : Env.

(** ** Clock *)

(** [Date.now()] *)
Definition Date_now : M Z :=
  fun w => (Return (env_now env (clock w)), tick w).

(** [new Date().toISOString()] *)
Definition new_Date_toISOString : M string :=
  fun w => (Return (env_toISOString env (env_now env (clock w))), tick w).

(** ** Session registry and publisher (server/routes/api.ts) *)

Definition sse_frame (data : SSEMessage) : string :=
  "data: " +:+ env_JSON_stringify env data +:+ LF +:+ LF.

(** [router.get("/sse/:sessionId")]: store the response under the session
    id, replacing an earlier one, and greet the client. *)
Definition sse_connect (sessionId : string) : M unit :=
  fun w =>
    let res := {| res_writable := true; res_written := [] |} in
    let w := set_clients (<[sessionId := res]> (sseClients w)) w in
    let '(ts, w) := (env_toISOString env (env_now env (clock w)), tick w) in
    let connected :=
      {| sse_type := TConnected; sse_step := None;
         sse_message := Some "Connected to research stream";
         sse_result := None; sse_timestamp := ts |} in
    (Return tt,
     set_clients (<[sessionId := fst (write res (sse_frame connected))]> (sseClients w)) w).

(** [req.on("close", ...)] *)
Definition sse_close (sessionId : string) : M unit :=
  fun w => (Return tt, set_clients (delete sessionId (sseClients w)) w).

Definition sendSSEUpdate (sessionId : string) (data : SSEMessage) : M unit :=
  fun w =>
    let w := log (Published sessionId data) w in
    match sseClients w !! sessionId with
    | Some client =>
        let '(client', _) := write client (sse_frame data) in
        (Return tt, set_clients (<[sessionId := client']> (sseClients w)) w)
    | None => (Return tt, w)
    end.

(** [if (sessionId) { sendSSEUpdate(sessionId, {... timestamp: new
    Date().toISOString() ...}) }]: the message literal is built, reading
    the clock, only inside the guard. *)
Definition publish_if (sessionId : option string) (mk : string -> SSEMessage) : M unit :=
  match sessionId with
  | Some (String _ _ as sid) =>
      let* ts := new_Date_toISOString in sendSSEUpdate sid (mk ts)
  | _ => ret tt
  end.

Definition status_message (step : SSEStep) (message ts : string) : SSEMessage :=
  {| sse_type := TStatus; sse_step := Some step; sse_message := Some message;
     sse_result := None; sse_timestamp := ts |}.

(** ** Pica service (server/services/pica.ts) *)

Record PicaService := { config : PicaConfig }.

Definition createPicaService : M PicaService :=
  match env_PICA_SECRET env with
  | Some (String _ _ as secret) =>
      ret {| config := {| secret := secret;
                          serverUrl := Some "https://api.picaos.com/v1" |} |}
  | _ => throw (Error "PICA_SECRET environment variable is required")
  end.

Definition createOpenAIService : M OpenAIService :=
  await (env_createOpenAIService env).

Definition status_is (error : JsError) (code : Z) : bool :=
  match err_response error with
  | Some r => er_status r =? code
  | None => false
  end.

Definition getGitHubConnection (this : PicaService) : M (option GitHubConnection) :=
  try_catch
    (let* data := await (env_client_get env (secret (config this))
                           "/vault/connections?platform=github") in
     match rows data with
     | Some (githubConnection :: _) =>
         ret (Some {| connectionKey := row_key githubConnection;
                      platform := row_platform githubConnection |})
     | _ => ret None
     end)
    (fun error =>
       if status_is error 401
       then ret (Some {| connectionKey := "mcp-fallback"; platform := "github" |})
       else ret None).

Definition failure_message (params : GitHubIssueParams) (error : JsError) : string :=
  match err_response error with
  | Some r =>
      if er_status r =? 401 then
        "Authentication failed. Please check your Pica API key and GitHub connection."
      else if er_status r =? 404 then
        "Repository " +:+ gp_owner params +:+ "/" +:+ gp_repo params
          +:+ " not found or not accessible."
      else
        "GitHub API error: " +:+ pretty (er_status r) +:+ " - "
          +:+ or_else (er_data_message r) (er_statusText r)
  | None =>
      if err_request error
      then "Network error: Unable to reach GitHub API via Pica"
      else err_message error
  end.

Definition createGitHubIssue (this : PicaService) (params : GitHubIssueParams)
  : M ActionResult :=
  try_catch
    (let* githubConnection := getGitHubConnection this in
     match githubConnection with
     | None =>
         throw (Error "No GitHub connection found. Please connect GitHub in your Pica dashboard at: https://app.picaos.com/connections")
     | Some githubConnection =>
         if String.eqb (connectionKey githubConnection) "mcp-fallback" then
           let* ts := new_Date_toISOString in
           ret {| ar_type := GithubIssue; ar_platform := "github";
                  ar_success := false; ar_result := None;
                  ar_error := Some "Pica API authentication issue. Please check your API key at https://app.picaos.com/settings/api-keys and ensure GitHub is connected at https://app.picaos.com/connections";
                  ar_timestamp := ts |}
         else
           let issueData :=
             {| id_title := gp_title params; id_body := gp_body params;
                id_labels := ["research"; "ai-generated"] |} in
           let* data := await (env_client_post env (secret (config this))
                          ("/passthrough/repos/" +:+ gp_owner params +:+ "/"
                             +:+ gp_repo params +:+ "/issues")
                          issueData (connectionKey githubConnection)) in
           let issueUrl := html_url data in
           let issueNumber := number data in
           let* ts := new_Date_toISOString in
           ret {| ar_type := GithubIssue; ar_platform := "github";
                  ar_success := true;
                  ar_result := Some {| issueNumber := issueNumber;
                                       issueUrl := issueUrl;
                                       ir_title := gp_title params;
                                       repository := gp_owner params +:+ "/"
                                                       +:+ gp_repo params |};
                  ar_error := None; ar_timestamp := ts |}
     end)
    (fun error =>
       let errorMessage := failure_message params error in
       let* ts := new_Date_toISOString in
       ret {| ar_type := GithubIssue; ar_platform := "github";
              ar_success := false; ar_result := None;
              ar_error := Some errorMessage; ar_timestamp := ts |}).

(** ** The handler (server/routes/api.ts, [router.post("/research-and-action")]) *)

(** [let [owner, repo] = githubRepo.split("/")] followed by the bare-name
    fallback under [if (!repo)]. *)
Definition parse_repo (githubRepo : string) : string * string :=
  let parts := split_slash githubRepo in
  match parts !! 1%nat with
  | Some (String _ _ as repo) => (template (parts !! 0%nat), repo)
  | _ => ("your-username", githubRepo)
  end.

Definition complete_message (githubAction : ActionResult) : string :=
  if ar_success githubAction
  then "GitHub issue created successfully!"
  else "GitHub issue creation failed: " +:+ template (ar_error githubAction).

Definition status_eqb (a b : ResearchStatus) : bool :=
  match a, b with
  | Pending, Pending | Completed, Completed | Failed, Failed => true
  | _, _ => false
  end.

(** The body of the [try] block. *)
Definition handler_try (body : RequestBody) : M HttpResponse :=
  let sessionId := body_sessionId body in
  let githubRepo := default "test-repo" (body_githubRepo body) in
  match body_query body with
  | Some (String _ _ as query) =>
      let* sid :=
        match sessionId with
        | Some (String _ _ as s) => ret s
        | _ => let* now := Date_now in ret ("session_" +:+ pretty now)
        end in
      let researchQuery :=
        {| rq_query := query; rq_userId := None; rq_sessionId := Some sid |} in
      let* openaiService := createOpenAIService in
      let* picaService := createPicaService in
      do publish_if sessionId
           (status_message Analyzing "Analyzing your query...") then
      do publish_if sessionId
           (status_message Researching "Conducting deep research with OpenAI...") then
      let* researchResult :=
        observed (Researched researchQuery)
          (await (generateResearch openaiService researchQuery)) in
      if status_eqb (rr_status researchResult) Failed
      then throw (Error (rr_findings researchResult))
      else
      do publish_if sessionId
           (status_message Planning "Planning GitHub issue creation...") then
      let* issueContent :=
        observed (Formatted (rr_findings researchResult) query)
          (await (generateGitHubIssueContent openaiService
                    (rr_findings researchResult) query)) in
      do publish_if sessionId
           (status_message Executing "Creating GitHub issue...") then
      let parsed := parse_repo githubRepo in
      let owner := fst parsed in
      let repo := snd parsed in
      let params :=
        {| gp_title := ic_title issueContent; gp_body := ic_body issueContent;
           gp_owner := owner; gp_repo := repo |} in
      let* githubAction :=
        observed (IssueCreation params) (createGitHubIssue picaService params) in
      let actionResults := [] ++ [githubAction] in
      do publish_if sessionId
           (fun ts =>
              {| sse_type := TComplete; sse_step := Some StepComplete;
                 sse_message := Some (complete_message githubAction);
                 sse_result := Some {| sr_research := researchResult;
                                       sr_actions := actionResults |};
                 sse_timestamp := ts |}) then
      ret {| http_status := 200;
             http_body := SuccessJson
               {| sb_success := true;
                  sb_sessionId := sid;
                  sb_research := researchResult;
                  sb_actions := actionResults;
                  sb_summary :=
                    {| sm_query := query;
                       researchCompleted :=
                         status_eqb (rr_status researchResult) Completed;
                       actionsExecuted := length actionResults;
                       successfulActions :=
                         length (List.filter ar_success actionResults);
                       githubIssueUrl :=
                         if ar_success githubAction
                         then issueUrl <$> ar_result githubAction
                         else None |} |} |}
  | _ =>
      ret {| http_status := 400;
             http_body := ValidationJson "Query is required"
                            "Please provide a research query" |}
  end.

(** The [catch (error)] block. *)
Definition handler_catch (body : RequestBody) (error : JsError) : M HttpResponse :=
  let* ts := new_Date_toISOString in
  let errorResponse :=
    {| eb_success := false;
       eb_error := "Research and action workflow failed";
       eb_details := err_message error;
       eb_timestamp := ts |} in
  do publish_if (body_sessionId body)
       (fun ts =>
          {| sse_type := TError; sse_step := None;
             sse_message := Some (eb_details errorResponse);
             sse_result := None; sse_timestamp := ts |}) then
  ret {| http_status := 500; http_body := ErrorJson errorResponse |}.

Definition research_and_action (body : RequestBody) : M HttpResponse :=
  try_catch (handler_try body) (handler_catch body).

(** The synchronous response of a run and what the run did. *)
Definition response_of (body : RequestBody) (w : World) : Completion HttpResponse :=
  fst (research_and_action body w).

Definition effects_of (body : RequestBody) (w : World) : list Effect :=
  effects_since w (snd (research_and_action body w)).

End Workflow.

(** ** Observations on a run *)

(** The events handed to [sendSSEUpdate], with their addressee. *)
Definition published (t : list Effect) : list (string * SSEMessage) :=
  omap (fun e => match e with
                 | Published sid data => Some (sid, data)
                 | _ => None
                 end) t.

(** The collaborator calls made. *)
Definition invocations (t : list Effect) : list Effect :=
  List.filter (fun e => match e with Published _ _ => false | _ => true end) t.

(** The calls of the issue creation, with what they returned. *)
Definition issue_calls (t : list Effect)
  : list (GitHubIssueParams * Completion ActionResult) :=
  omap (fun e => match e with
                 | IssueCreation params r => Some (params, r)
                 | _ => None
                 end) t.

(** [result.repository] of a returned action result, when there is one. *)
Definition repository_of (r : Completion ActionResult) : option string :=
  match r with
  | Return a => repository <$> ar_result a
  | Raise _ => None
  end.

(** An event's discriminating fields: its [type] and its [step]. *)
Definition tag (data : SSEMessage) : SSEType * option SSEStep :=
  (sse_type data, sse_step data).

Definition tags (t : list Effect) : list (string * (SSEType * option SSEStep)) :=
  (fun p => (fst p, tag (snd p))) <$> published t.

(** [complete] and [error] events end a stream. *)
Definition terminal (data : SSEMessage) : bool :=
  match sse_type data with
  | TComplete | TError => true
  | _ => false
  end.

(** ** The shape of a run

    A run of the handler is described by its response and by what it did,
    up to the readings of the clock. *)

(** The events a guarded [sendSSEUpdate] hands over: none when the
    request's [sessionId] is falsy. *)
Definition notes (sessionId : option string) (l : list SSEMessage) : list Effect :=
  match sessionId with
  | Some (String _ _ as sid) => Published sid <$> l
  | _ => []
  end.

Definition error_event (message ts : string) : SSEMessage :=
  {| sse_type := TError; sse_step := None; sse_message := Some message;
     sse_result := None; sse_timestamp := ts |}.

Definition complete_event (research : ResearchResult) (actions : list ActionResult)
    (message ts : string) : SSEMessage :=
  {| sse_type := TComplete; sse_step := Some StepComplete;
     sse_message := Some message;
     sse_result := Some {| sr_research := research; sr_actions := actions |};
     sse_timestamp := ts |}.

Definition analyzing := status_message Analyzing "Analyzing your query...".
Definition researching :=
  status_message Researching "Conducting deep research with OpenAI...".
Definition planning := status_message Planning "Planning GitHub issue creation...".
Definition executing := status_message Executing "Creating GitHub issue...".

(** The session id of the [ResearchQuery]: the request's, or a generated one. *)
Definition session_of (env : Env) (body : RequestBody) (w : World) : string :=
  match body_sessionId body with
  | Some (String _ _ as s) => s
  | _ => "session_" +:+ pretty (env_now env (clock w))
  end.

Definition research_query (query sid : string) : ResearchQuery :=
  {| rq_query := query; rq_userId := None; rq_sessionId := Some sid |}.

Definition issue_params (ic : IssueContent) (githubRepo : option string)
  : GitHubIssueParams :=
  {| gp_title := ic_title ic; gp_body := ic_body ic;
     gp_owner := fst (parse_repo (default "test-repo" githubRepo));
     gp_repo := snd (parse_repo (default "test-repo" githubRepo)) |}.

Definition summary_of (query : string) (research : ResearchResult)
    (githubAction : ActionResult) : Summary :=
  {| sm_query := query;
     researchCompleted := status_eqb (rr_status research) Completed;
     actionsExecuted := length [githubAction];
     successfulActions := length (List.filter ar_success [githubAction]);
     githubIssueUrl := if ar_success githubAction
                       then issueUrl <$> ar_result githubAction else None |}.

(** Where the [try] block was left by an exception, what had been done
    by then, and the exception. *)
Inductive Stopped (env : Env) (sess : option string) (query sid : string)
  : list Effect -> JsError -> Prop :=
| stop_openai e :
    env_createOpenAIService env = Raise e ->
    Stopped env sess query sid [] e
| stop_pica svc :
    env_createOpenAIService env = Return svc ->
    truthy (env_PICA_SECRET env) = false ->
    Stopped env sess query sid []
      (Error "PICA_SECRET environment variable is required")
| stop_research_raised svc e t1 t2 :
    env_createOpenAIService env = Return svc ->
    truthy (env_PICA_SECRET env) = true ->
    generateResearch svc (research_query query sid) = Raise e ->
    Stopped env sess query sid
      (notes sess [analyzing t1; researching t2]
         ++ [Researched (research_query query sid) (Raise e)]) e
| stop_research_failed svc rr t1 t2 :
    env_createOpenAIService env = Return svc ->
    truthy (env_PICA_SECRET env) = true ->
    generateResearch svc (research_query query sid) = Return rr ->
    rr_status rr = Failed ->
    Stopped env sess query sid
      (notes sess [analyzing t1; researching t2]
         ++ [Researched (research_query query sid) (Return rr)])
      (Error (rr_findings rr))
| stop_formatting svc rr e t1 t2 t3 :
    env_createOpenAIService env = Return svc ->
    truthy (env_PICA_SECRET env) = true ->
    generateResearch svc (research_query query sid) = Return rr ->
    rr_status rr <> Failed ->
    generateGitHubIssueContent svc (rr_findings rr) query = Raise e ->
    Stopped env sess query sid
      (notes sess [analyzing t1; researching t2]
         ++ [Researched (research_query query sid) (Return rr)]
         ++ notes sess [planning t3]
         ++ [Formatted (rr_findings rr) query (Raise e)]) e.

Inductive Run (env : Env) (body : RequestBody) (w : World)
  : Completion HttpResponse -> list Effect -> Prop :=
| run_rejected :
    truthy (body_query body) = false ->
    Run env body w
      (Return {| http_status := 400;
                 http_body := ValidationJson "Query is required"
                                "Please provide a research query" |}) []
| run_failed query done e t t' :
    body_query body = Some query ->
    truthy (Some query) = true ->
    Stopped env (body_sessionId body) query (session_of env body w) done e ->
    Run env body w
      (Return {| http_status := 500;
                 http_body := ErrorJson
                   {| eb_success := false;
                      eb_error := "Research and action workflow failed";
                      eb_details := err_message e;
                      eb_timestamp := t |} |})
      (done ++ notes (body_sessionId body) [error_event (err_message e) t'])
| run_completed query svc secret rr ic ga at_call t1 t2 t3 t4 t5 :
    body_query body = Some query ->
    truthy (Some query) = true ->
    env_createOpenAIService env = Return svc ->
    env_PICA_SECRET env = Some secret ->
    truthy (Some secret) = true ->
    generateResearch svc (research_query query (session_of env body w)) = Return rr ->
    rr_status rr <> Failed ->
    generateGitHubIssueContent svc (rr_findings rr) query = Return ic ->
    createGitHubIssue env
      {| config := {| secret := secret;
                      serverUrl := Some "https://api.picaos.com/v1" |} |}
      (issue_params ic (body_githubRepo body)) at_call
      = (Return ga, tick at_call) ->
    Run env body w
      (Return {| http_status := 200;
                 http_body := SuccessJson
                   {| sb_success := true;
                      sb_sessionId := session_of env body w;
                      sb_research := rr;
                      sb_actions := [ga];
                      sb_summary := summary_of query rr ga |} |})
      (notes (body_sessionId body) [analyzing t1; researching t2]
         ++ [Researched (research_query query (session_of env body w)) (Return rr)]
         ++ notes (body_sessionId body) [planning t3]
         ++ [Formatted (rr_findings rr) query (Return ic)]
         ++ notes (body_sessionId body) [executing t4]
         ++ [IssueCreation (issue_params ic (body_githubRepo body)) (Return ga)]
         ++ notes (body_sessionId body)
              [complete_event rr [ga] (complete_message ga) t5]).

(** What an action result of [createGitHubIssue] looks like. *)
Definition gated (env : Env) (this : PicaService) (params : GitHubIssueParams)
    (r : ActionResult) : Prop :=
  (ar_success r = true ->
     ar_error r = None
     /\ exists res, ar_result r = Some res
          /\ ir_title res = gp_title params
          /\ repository res = gp_owner params +:+ "/" +:+ gp_repo params)
  /\ (ar_success r = false ->
        ar_result r = None
        /\ exists msg, ar_error r = Some msg
             /\ (msg = "" ->
                 exists url data key e,
                   env_client_post env (secret (config this)) url data key = Raise e
                   /\ err_response e = None /\ err_request e = false
                   /\ err_message e = "")).

(** Worlds that differ at most in the registry of streams. *)
Definition agree (w1 w2 : World) : Prop :=
  clock w1 = clock w2 /\ trace w1 = trace w2.

(** A computation whose completion, clock and log do not depend on the
    registry. *)
Definition blind {A} (m : M A) : Prop :=
  forall w1 w2, agree w1 w2 ->
    fst (m w1) = fst (m w2) /\ agree (snd (m w1)) (snd (m w2)).

(** What [sendSSEUpdate] does to the registry. *)
Definition relay (sessionId chunk : string) (clients : gmap string Response)
  : gmap string Response :=
  match clients !! sessionId with
  | Some client => <[sessionId := fst (write client chunk)]> clients
  | None => clients
  end.

(** A string without ["/"]. *)
Fixpoint slash_free (s : string) : bool :=
  match s with
  | EmptyString => true
  | String c rest => negb (Ascii.eqb c "/"%char) && slash_free rest
  end.

(** ** A concrete environment, for closed instances *)

Module Sample.

Definition research (q : ResearchQuery) : ResearchResult :=
  {| rr_id := "r1"; rr_query := rq_query q; rr_findings := "findings";
     rr_actions := []; rr_timestamp := "t"; rr_status := Completed |}.

Definition failed_research (q : ResearchQuery) : ResearchResult :=
  {| rr_id := "r1"; rr_query := rq_query q; rr_findings := "upstream unavailable";
     rr_actions := []; rr_timestamp := "t"; rr_status := Failed |}.

Definition openai (r : ResearchQuery -> ResearchResult) : OpenAIService :=
  {| generateResearch := fun q => Return (r q);
     generateGitHubIssueContent := fun findings query =>
       Return {| ic_title := query; ic_body := findings |} |}.

Definition github_rows : ConnectionsData :=
  {| rows := Some [ {| row_key := "live::github::key"; row_platform := "github" |} ] |}.

(** Every collaborator answers. *)
Definition env_ok : Env :=
  {| env_now := fun n => 1700000000000 + Z.of_nat n;
     env_toISOString := fun z => pretty z;
     env_JSON_stringify := fun m => "{}";
     env_PICA_SECRET := Some "sk_test";
     env_createOpenAIService := Return (openai research);
     env_client_get := fun _ _ => Return github_rows;
     env_client_post := fun _ url _ _ =>
       Return {| html_url := "https://github.com" +:+ url; number := 7 |} |}.

Definition with_research (r : ResearchQuery -> ResearchResult) (e : Env) : Env :=
  {| env_now := env_now e; env_toISOString := env_toISOString e;
     env_JSON_stringify := env_JSON_stringify e;
     env_PICA_SECRET := env_PICA_SECRET e;
     env_createOpenAIService := Return (openai r);
     env_client_get := env_client_get e;
     env_client_post := env_client_post e |}.

Definition with_post (post : Completion CreatedIssue) (e : Env) : Env :=
  {| env_now := env_now e; env_toISOString := env_toISOString e;
     env_JSON_stringify := env_JSON_stringify e;
     env_PICA_SECRET := env_PICA_SECRET e;
     env_createOpenAIService := env_createOpenAIService e;
     env_client_get := env_client_get e;
     env_client_post := fun _ _ _ _ => post |}.

(** The passthrough call is refused by GitHub. *)
Definition env_post_fails : Env :=
  with_post (Raise {| err_message := "Request failed with status code 422";
                      err_response := Some {| er_status := 422;
                                              er_data_message := Some "Validation Failed";
                                              er_statusText := "Unprocessable Entity" |};
                      err_request := true |}) env_ok.

Definition env_research_fails : Env := with_research failed_research env_ok.

Definition w0 : World := {| sseClients := ∅; clock := 0; trace := [] |}.

(** A world in which session [s1] has an open stream. *)
Definition w1 : World := snd (sse_connect env_ok "s1" w0).

Definition body (q sid repo : option string) : RequestBody :=
  {| body_query := q; body_sessionId := sid; body_githubRepo := repo |}.

Definition params : GitHubIssueParams :=
  {| gp_title := "t"; gp_body := "b"; gp_owner := "acme"; gp_repo := "widgets" |}.

Definition pica : PicaService :=
  {| config := {| secret := "sk_test"; serverUrl := None |} |}.

End Sample.

(** * The rest of the service, the other routes and the client

    [PicaService.testConnection], [getConnections],
    [listGitHubRepositories] and [executeAction] (server/services/pica.ts),
    the routes [GET /github/repos/:owner] and [GET /test-connections]
    (server/routes/api.ts), and the reading of the handler's response in
    [performResearchAndAction] (client/script.js). *)

(** A row of [GET /vault/connections], as [getConnections] types it. *)
Record VaultRow := {
  vr_id : string;
  vr_platform : string;
  vr_key : string;
  vr_name : option string;
  vr_active : bool;
  vr_description : option string
}.

Inductive ConnectionStatus := Connected | Disconnected | ConnectionError.

Record PicaConnection := {
  pc_id : string;
  pc_name : string;
  pc_platform : string;
  pc_status : ConnectionStatus
}.

(** An entry of [listGitHubRepositories]. *)
Record Repository := {
  repo_name : string;
  repo_full_name : string;
  repo_description : string;
  repo_private : bool
}.

(** The environment of the handler together with the calls only the
    other routes make. *)
Record Backend := {
  be_env : Env;
  (** [client.get("/available-connectors")] with the [x-pica-secret] header *)
  be_get_available_connectors : string -> Completion unit;
  (** [response.data.rows] of [client.get("/vault/connections")] *)
  be_get_vault_connections : string -> Completion (list VaultRow);
  (** [response.data] of [client.get(url, {headers: x-pica-connection-key})],
      by secret, url and connection key; [None] is a falsy body *)
  be_get_repos : string -> string -> string -> Completion (option (list Repository));
  (** [openaiService.testConnection()] *)
  be_openai_testConnection : Completion bool
}.

(** The environment with another [client.post]. *)
Definition set_client_post
    (post : string -> string -> IssueData -> string -> Completion CreatedIssue)
    (e : Env) : Env :=
  {| env_now := env_now e; env_toISOString := env_toISOString e;
     env_JSON_stringify := env_JSON_stringify e;
     env_PICA_SECRET := env_PICA_SECRET e;
     env_createOpenAIService := env_createOpenAIService e;
     env_client_get := env_client_get e;
     env_client_post := post |}.

(** The body and the url of the passthrough call of [createGitHubIssue]. *)
Definition issue_data (params : GitHubIssueParams) : IssueData :=
  {| id_title := gp_title params; id_body := gp_body params;
     id_labels := ["research"; "ai-generated"] |}.

Definition issues_url (params : GitHubIssueParams) : string :=
  "/passthrough/repos/" +:+ gp_owner params +:+ "/" +:+ gp_repo params
    +:+ "/issues".

(** The value of [ActionResult.type] as the string it is in JavaScript. *)
Definition type_name (t : ActionType) : string :=
  match t with
  | GithubIssue => "github_issue"
  | Email => "email"
  | SheetUpdate => "sheet_update"
  | SlackMessage => "slack_message"
  end.

(** [ActionResult] as [executeAction] returns it: [type] is any string
    ([actionType as any]) and [result] is either the issue payload or the
    placeholder [{message, params}]. *)
Inductive ActionPayload (P : Type) :=
| IssuePayload (r : IssueResult)
| MessagePayload (message : string) (params : P).
Arguments IssuePayload {P} r.
Arguments MessagePayload {P} message params.

Record ExecutedAction (P : Type) := {
  ea_type : string;
  ea_platform : string;
  ea_success : bool;
  ea_result : option (ActionPayload P);
  ea_error : option string;
  ea_timestamp : string
}.
Arguments ea_type {P} _.
Arguments ea_platform {P} _.
Arguments ea_success {P} _.
Arguments ea_result {P} _.
Arguments ea_error {P} _.
Arguments ea_timestamp {P} _.

Definition of_action_result {P} (a : ActionResult) : ExecutedAction P :=
  {| ea_type := type_name (ar_type a); ea_platform := ar_platform a;
     ea_success := ar_success a; ea_result := IssuePayload <$> ar_result a;
     ea_error := ar_error a; ea_timestamp := ar_timestamp a |}.

(** Bodies of the two other routes. *)
Inductive ReposJson :=
| ReposOk (repositories : list Repository)
| ReposFailed (error details : string).

Record ConnectionsReport := {
  cr_openai : bool;
  cr_pica : bool;
  cr_github : bool;
  picaConnections : list PicaConnection;
  githubConnectionKey : string;
  note_openai : string;
  note_pica : string;
  note_github : string
}.

Inductive TestJson :=
| TestOk (report : ConnectionsReport)
| TestFailed (error details : string).

Record Reply (B : Type) := {
  reply_status : Z;
  reply_body : B
}.
Arguments reply_status {B} _.
Arguments reply_body {B} _.

Section Service.

Variable be : Backend.

Let env := be_env be.

Definition testConnection (this : PicaService) : M bool :=
  try_catch
    (let* response := await (be_get_available_connectors be (secret (config this))) in
     ret true)
    (fun error => ret false).

Definition to_connection (conn : VaultRow) : PicaConnection :=
  {| pc_id := vr_id conn;
     pc_name := or_else (vr_name conn) (vr_platform conn);
     pc_platform := vr_platform conn;
     pc_status := if vr_active conn then Connected else Disconnected |}.

(** Thrown values are [Error] objects here, so [error instanceof Error]
    holds in the catch block. *)
Definition getConnections (this : PicaService) : M (list PicaConnection) :=
  try_catch
    (let* rows := await (be_get_vault_connections be (secret (config this))) in
     ret (to_connection <$> rows))
    (fun error =>
       if status_is error 401 then ret []
       else throw (Error ("Failed to get connections: " +:+ err_message error))).

Definition listGitHubRepositories (this : PicaService) (owner : string)
  : M (list Repository) :=
  try_catch
    (let* githubConnection := getGitHubConnection env this in
     match githubConnection with
     | None => throw (Error "No GitHub connection found")
     | Some githubConnection =>
         let* data := await (be_get_repos be (secret (config this))
                               ("/passthrough/users/" +:+ owner +:+ "/repos")
                               (connectionKey githubConnection)) in
         ret (default [] data)
     end)
    (fun error => ret []).

(** [params: any] is handed to [createGitHubIssue] as it is; [as_issue]
    is that unchecked view of it. *)
Definition executeAction {P} (as_issue : P -> GitHubIssueParams)
    (this : PicaService) (actionType : string) (params : P)
  : M (ExecutedAction P) :=
  try_catch
    (if String.eqb actionType "github_issue" then
       let* r := createGitHubIssue env this (as_issue params) in
       ret (of_action_result r)
     else
       let* ts := new_Date_toISOString env in
       ret {| ea_type := actionType; ea_platform := "pica";
              ea_success := true;
              ea_result := Some (MessagePayload
                                   (actionType +:+ " executed successfully") params);
              ea_error := None; ea_timestamp := ts |})
    (fun error =>
       let* ts := new_Date_toISOString env in
       ret {| ea_type := actionType; ea_platform := "pica";
              ea_success := false; ea_result := None;
              ea_error := Some (err_message error); ea_timestamp := ts |}).

(** [router.get("/github/repos/:owner")] *)
Definition github_repos (owner : string) : M (Reply ReposJson) :=
  try_catch
    (let* picaService := createPicaService env in
     let* repos := listGitHubRepositories picaService owner in
     ret {| reply_status := 200; reply_body := ReposOk repos |})
    (fun error =>
       ret {| reply_status := 500;
              reply_body := ReposFailed "Failed to fetch repositories"
                              (err_message error) |}).

(** [router.get("/test-connections")].  Both probes of [Promise.all] are
    started; the Pica one never rejects and touches no state, so the pair
    settles as the OpenAI one does.  The inner [try] assigns [connections]
    before it looks the GitHub connection up. *)
Definition test_connections : M (Reply TestJson) :=
  try_catch
    (let* openaiService := createOpenAIService env in
     let* picaService := createPicaService env in
     let* openaiConnected := await (be_openai_testConnection be) in
     let* picaConnected := testConnection picaService in
     let* found :=
       try_catch
         (let* connections := getConnections picaService in
          try_catch
            (let* githubConnection := getGitHubConnection env picaService in
             ret (connections, githubConnection))
            (fun error => ret (connections, None)))
         (fun error => ret ([], None)) in
     let connections := fst found in
     let githubConnection := snd found in
     ret {| reply_status := 200;
            reply_body := TestOk
              {| cr_openai := openaiConnected;
                 cr_pica := picaConnected;
                 cr_github := bool_decide (is_Some githubConnection);
                 picaConnections := connections;
                 githubConnectionKey :=
                   if truthy (connectionKey <$> githubConnection)
                   then "Connected" else "Not connected";
                 note_openai :=
                   if openaiConnected then "Ready for deep research"
                   else "Check OPENAI_API_KEY in .env";
                 note_pica :=
                   if picaConnected then "API accessible"
                   else "Check PICA_SECRET in .env and verify at https://app.picaos.com/settings/api-keys";
                 note_github :=
                   if bool_decide (is_Some githubConnection)
                   then "GitHub integration ready"
                   else "Connect GitHub at https://app.picaos.com/connections" |} |})
    (fun error =>
       ret {| reply_status := 500;
              reply_body := TestFailed "Connection test failed"
                              (err_message error) |}).

End Service.

(** ** The client's reading of the response (client/script.js)

    [performResearchAndAction] after [response.json()]: a body whose
    [success] is falsy is turned into an [Error] carrying
    [data.details || data.error || "Unknown error occurred"]. *)
Definition data_success (data : JsonBody) : bool :=
  match data with
  | ValidationJson _ _ => false
  | SuccessJson b => sb_success b
  | ErrorJson b => eb_success b
  end.

Definition data_details (data : JsonBody) : option string :=
  match data with
  | ValidationJson _ details => Some details
  | SuccessJson _ => None
  | ErrorJson b => Some (eb_details b)
  end.

Definition data_error (data : JsonBody) : option string :=
  match data with
  | ValidationJson error _ => Some error
  | SuccessJson _ => None
  | ErrorJson b => Some (eb_error b)
  end.

Definition performResearchAndAction_reads (data : JsonBody) : Completion unit :=
  if negb (data_success data)
  then Raise (Error (or_else (data_details data)
                       (or_else (data_error data) "Unknown error occurred")))
  else Return tt.

(** ** Frames and streams *)

(** The registry after the events of a log have been relayed, in order. *)
Definition deliver (env : Env) (clients : gmap string Response) (t : list Effect)
  : gmap string Response :=
  foldl (fun c e => match e with
                    | Published sid data => relay sid (sse_frame env data) c
                    | _ => c
                    end) clients t.

(** The frames of the events of a log that are addressed to a session. *)
Definition frames_for (env : Env) (sessionId : string) (t : list Effect)
  : list string :=
  omap (fun e => match e with
                 | Published sid data =>
                     if String.eqb sid sessionId then Some (sse_frame env data)
                     else None
                 | _ => None
                 end) t.

(** A computation that touches the registry only by relaying the events it
    publishes. *)
Definition relays {A} (env : Env) (m : M A) : Prop :=
  forall w, exists l,
    trace (snd (m w)) = trace w ++ l
    /\ sseClients (snd (m w)) = deliver env (sseClients w) l.

(** The shapes of the collaborator calls of a run: a beginning of the
    pipeline research, formatting, issue creation. *)
Inductive Pipeline (query : string) : list Effect -> Prop :=
| pipe_none : Pipeline query []
| pipe_research_raised q e :
    rq_query q = query -> Pipeline query [Researched q (Raise e)]
| pipe_research_failed q rr :
    rq_query q = query -> rr_status rr = Failed ->
    Pipeline query [Researched q (Return rr)]
| pipe_formatting_raised q rr e :
    rq_query q = query -> rr_status rr <> Failed ->
    Pipeline query [Researched q (Return rr);
                    Formatted (rr_findings rr) query (Raise e)]
| pipe_complete q rr ic params a :
    rq_query q = query -> rr_status rr <> Failed ->
    gp_title params = ic_title ic -> gp_body params = ic_body ic ->
    Pipeline query [Researched q (Return rr);
                    Formatted (rr_findings rr) query (Return ic);
                    IssueCreation params (Return a)].

(** ** A request whose body was not parsed

    Under Express 5 [req.body] is [undefined] when no body parser took the
    request.  Then the destructuring at the head of the [try] block throws,
    and so does the one in the [catch] block, after [errorResponse] has been
    built.  The texts of the two [TypeError]s are the engine's. *)
Definition destructuring_error (property : string) : JsError :=
  Error ("Cannot destructure property '" +:+ property
           +:+ "' of 'req.body' as it is undefined.").

Definition research_and_action_request (env : Env)
    (req_body : option RequestBody) : M HttpResponse :=
  match req_body with
  | Some body => research_and_action env body
  | None =>
      try_catch
        (throw (destructuring_error "query"))
        (fun error =>
           let* ts := new_Date_toISOString env in
           let errorResponse :=
             {| eb_success := false;
                eb_error := "Research and action workflow failed";
                eb_details := err_message error;
                eb_timestamp := ts |} in
           throw (destructuring_error "sessionId"))
  end.

(** ** The handler between its suspensions

    The handler gives up control at its three [await]s (research,
    formatting, issue creation); until it is resumed the rest of the server
    runs: streams connect and close, other requests publish.  What happens
    in each of the three pauses is a change of the state.  Inside
    [createGitHubIssue] the state is only read, once, after its last
    [await], so its pauses count as one, before its body. *)
Record Interference := {
  during_research : World -> World;
  during_formatting : World -> World;
  during_issue : World -> World
}.

Definition idle : Interference :=
  {| during_research := fun w => w;
     during_formatting := fun w => w;
     during_issue := fun w => w |}.

(** [m] resumed after the pause [meanwhile]. *)
Definition suspended {A} (meanwhile : World -> World) (m : M A) : M A :=
  fun w => m (meanwhile w).

(** [handler_try] with its pauses. *)
Definition handler_try_during (env : Env) (others : Interference)
    (body : RequestBody) : M HttpResponse :=
  let sessionId := body_sessionId body in
  let githubRepo := default "test-repo" (body_githubRepo body) in
  match body_query body with
  | Some (String _ _ as query) =>
      let* sid :=
        match sessionId with
        | Some (String _ _ as s) => ret s
        | _ => let* now := Date_now env in ret ("session_" +:+ pretty now)
        end in
      let researchQuery :=
        {| rq_query := query; rq_userId := None; rq_sessionId := Some sid |} in
      let* openaiService := createOpenAIService env in
      let* picaService := createPicaService env in
      do publish_if env sessionId
           (status_message Analyzing "Analyzing your query...") then
      do publish_if env sessionId
           (status_message Researching "Conducting deep research with OpenAI...") then
      let* researchResult :=
        observed (Researched researchQuery)
          (suspended (during_research others)
             (await (generateResearch openaiService researchQuery))) in
      if status_eqb (rr_status researchResult) Failed
      then throw (Error (rr_findings researchResult))
      else
      do publish_if env sessionId
           (status_message Planning "Planning GitHub issue creation...") then
      let* issueContent :=
        observed (Formatted (rr_findings researchResult) query)
          (suspended (during_formatting others)
             (await (generateGitHubIssueContent openaiService
                       (rr_findings researchResult) query))) in
      do publish_if env sessionId
           (status_message Executing "Creating GitHub issue...") then
      let parsed := parse_repo githubRepo in
      let owner := fst parsed in
      let repo := snd parsed in
      let params :=
        {| gp_title := ic_title issueContent; gp_body := ic_body issueContent;
           gp_owner := owner; gp_repo := repo |} in
      let* githubAction :=
        observed (IssueCreation params)
          (suspended (during_issue others)
             (createGitHubIssue env picaService params)) in
      let actionResults := [] ++ [githubAction] in
      do publish_if env sessionId
           (fun ts =>
              {| sse_type := TComplete; sse_step := Some StepComplete;
                 sse_message := Some (complete_message githubAction);
                 sse_result := Some {| sr_research := researchResult;
                                       sr_actions := actionResults |};
                 sse_timestamp := ts |}) then
      ret {| http_status := 200;
             http_body := SuccessJson
               {| sb_success := true;
                  sb_sessionId := sid;
                  sb_research := researchResult;
                  sb_actions := actionResults;
                  sb_summary :=
                    {| sm_query := query;
                       researchCompleted :=
                         status_eqb (rr_status researchResult) Completed;
                       actionsExecuted := length actionResults;
                       successfulActions :=
                         length (List.filter ar_success actionResults);
                       githubIssueUrl :=
                         if ar_success githubAction
                         then issueUrl <$> ar_result githubAction
                         else None |} |} |}
  | _ =>
      ret {| http_status := 400;
             http_body := ValidationJson "Query is required"
                            "Please provide a research query" |}
  end.

Definition research_and_action_during (env : Env) (others : Interference)
    (body : RequestBody) : M HttpResponse :=
  try_catch (handler_try_during env others body) (handler_catch env body).

(** A stream after the events of a log have been relayed to its session
    id: its frames followed by theirs, or itself when it is not writable. *)
Definition stream_after (env : Env) (sessionId : string)
    (before : option Response) (t : list Effect) : option Response :=
  (fun client =>
     if res_writable client
     then {| res_writable := true;
             res_written := res_written client ++ frames_for env sessionId t |}
     else client) <$> before.

(** A computation that touches what is registered under a session id only
    by relaying to it the events published to that id. *)
Definition relays_on {A} (env : Env) (sessionId : string) (m : M A) : Prop :=
  forall w, exists l,
    trace (snd (m w)) = trace w ++ l
    /\ sseClients (snd (m w)) !! sessionId
       = stream_after env sessionId (sseClients w !! sessionId) l.

(** A pause in which no stream is opened or closed under the session id;
    publishing to it, and anything under other ids, is allowed. *)
Definition quiet (env : Env) (sessionId : string) (meanwhile : World -> World)
  : Prop :=
  relays_on env sessionId (fun w => (Return tt, meanwhile w)).

(** Tags addressed to the request's session; none without one. *)
Definition addressed (sessionId : option string)
    (l : list (SSEType * option SSEStep))
  : list (string * (SSEType * option SSEStep)) :=
  match sessionId with
  | Some (String _ _ as sid) => (fun t => (sid, t)) <$> l
  | _ => []
  end.

(** ** More concrete environments *)

Module Sample2.

Definition unauthorized : JsError :=
  {| err_message := "Request failed with status code 401";
     err_response := Some {| er_status := 401; er_data_message := None;
                             er_statusText := "Unauthorized" |};
     err_request := true |}.

Definition server_error : JsError :=
  {| err_message := "Request failed with status code 500";
     err_response := Some {| er_status := 500; er_data_message := None;
                             er_statusText := "Internal Server Error" |};
     err_request := true |}.

Definition not_found : JsError :=
  {| err_message := "Request failed with status code 404";
     err_response := Some {| er_status := 404; er_data_message := None;
                             er_statusText := "Not Found" |};
     err_request := true |}.

Definition with_get (get : Completion ConnectionsData) (e : Env) : Env :=
  {| env_now := env_now e; env_toISOString := env_toISOString e;
     env_JSON_stringify := env_JSON_stringify e;
     env_PICA_SECRET := env_PICA_SECRET e;
     env_createOpenAIService := env_createOpenAIService e;
     env_client_get := fun _ _ => get;
     env_client_post := env_client_post e |}.

Definition with_secret (secret : option string) (e : Env) : Env :=
  {| env_now := env_now e; env_toISOString := env_toISOString e;
     env_JSON_stringify := env_JSON_stringify e;
     env_PICA_SECRET := secret;
     env_createOpenAIService := env_createOpenAIService e;
     env_client_get := env_client_get e;
     env_client_post := env_client_post e |}.

Definition with_openai (svc : OpenAIService) (e : Env) : Env :=
  {| env_now := env_now e; env_toISOString := env_toISOString e;
     env_JSON_stringify := env_JSON_stringify e;
     env_PICA_SECRET := env_PICA_SECRET e;
     env_createOpenAIService := Return svc;
     env_client_get := env_client_get e;
     env_client_post := env_client_post e |}.

(** Pica answers every call with 401. *)
Definition env_unauthorized : Env :=
  with_get (Raise unauthorized) (Sample.with_post (Raise unauthorized) Sample.env_ok).

Definition env_no_secret : Env := with_secret None Sample.env_ok.

Definition pending_research (q : ResearchQuery) : ResearchResult :=
  {| rr_id := "r1"; rr_query := rq_query q; rr_findings := "so far";
     rr_actions := []; rr_timestamp := "t"; rr_status := Pending |}.

Definition env_pending : Env := Sample.with_research pending_research Sample.env_ok.

(** The research answers and the formatting of the issue is rejected. *)
Definition env_formatting_fails : Env :=
  with_openai
    {| generateResearch := fun q => Return (Sample.research q);
       generateGitHubIssueContent := fun _ _ => Raise (Error "rate limited") |}
    Sample.env_ok.

(** The research call itself is rejected. *)
Definition env_research_raises : Env :=
  with_openai
    {| generateResearch := fun q => Raise (Error "timeout");
       generateGitHubIssueContent := fun findings query =>
         Return {| ic_title := query; ic_body := findings |} |}
    Sample.env_ok.

(** The passthrough call is rejected before any request is made. *)
Definition env_post_unsupported : Env :=
  Sample.with_post (Raise (Error "Unsupported protocol ftp:")) Sample.env_ok.

(** The passthrough call is answered with 404. *)
Definition env_post_not_found : Env :=
  Sample.with_post (Raise not_found) Sample.env_ok.

Definition vault : list VaultRow :=
  [ {| vr_id := "c1"; vr_platform := "github"; vr_key := "live::github::key";
       vr_name := None; vr_active := true; vr_description := None |};
    {| vr_id := "c2"; vr_platform := "slack"; vr_key := "live::slack::key";
       vr_name := Some "Team chat"; vr_active := false; vr_description := None |} ].

Definition repos : list Repository :=
  [ {| repo_name := "widgets"; repo_full_name := "acme/widgets";
       repo_description := "Widgets"; repo_private := false |} ].

(** While the request of session [s1] is served: another client connects
    under [s2], another request publishes to [s1], and the client of [s2]
    leaves. *)
Definition busy : Interference :=
  {| during_research := fun w => snd (sse_connect Sample.env_ok "s2" w);
     during_formatting :=
       fun w => snd (sendSSEUpdate Sample.env_ok "s1"
                       (error_event "from another request" "t") w);
     during_issue := fun w => snd (sse_close "s2" w) |}.

Definition after_busy_run : World :=
  snd (research_and_action_during Sample.env_ok busy
         (Sample.body (Some "Research X") (Some "s1") None) Sample.w1).

Definition backend (e : Env) : Backend :=
  {| be_env := e;
     be_get_available_connectors := fun _ => Return tt;
     be_get_vault_connections := fun _ => Return vault;
     be_get_repos := fun _ _ _ => Return (Some repos);
     be_openai_testConnection := Return true |}.

(** Every call to Pica is answered with 401. *)
Definition backend_unauthorized : Backend :=
  {| be_env := env_unauthorized;
     be_get_available_connectors := fun _ => Raise unauthorized;
     be_get_vault_connections := fun _ => Raise unauthorized;
     be_get_repos := fun _ _ _ => Raise unauthorized;
     be_openai_testConnection := Return true |}.

(** The list of connections fails with 500; the GitHub lookup would
    succeed. *)
Definition backend_listing_fails : Backend :=
  {| be_env := Sample.env_ok;
     be_get_available_connectors := fun _ => Return tt;
     be_get_vault_connections := fun _ => Raise server_error;
     be_get_repos := fun _ _ _ => Return (Some repos);
     be_openai_testConnection := Return true |}.

End Sample2.

(** * Properties *)

(** ** The monad and the primitives *)

Lemma effects_since_app w w' l :
  trace w' = trace w ++ l -> effects_since w w' = l.
Proof.
  intros E. unfold effects_since. rewrite E. apply drop_app_length.
Qed.

Lemma sendSSEUpdate_eq env sid data w :
  sendSSEUpdate env sid data w
  = (Return tt,
     set_clients (relay sid (sse_frame env data) (sseClients w))
       (log (Published sid data) w)).
Proof.
  unfold sendSSEUpdate, relay. cbn.
  destruct (sseClients w !! sid) as [client|].
  - now destruct (write client (sse_frame env data)).
  - now destruct w.
Qed.

(** [createGitHubIssue] reads the clock once on each of its paths and
    always returns. *)
Lemma createGitHubIssue_returns env this params w :
  exists r, createGitHubIssue env this params w = (Return r, tick w).
Proof.
  unfold createGitHubIssue, getGitHubConnection, try_catch, bind, await,
    new_Date_toISOString, ret, throw.
  destruct (env_client_get env _ _) as [[[[|row l]|]]|e]; cbn;
    try (destruct (status_is e 401); cbn);
    try (destruct (String.eqb _ "mcp-fallback"); cbn);
    try (destruct (env_client_post env _ _ _ _); cbn);
    eauto.
Qed.

Ltac run_simpl :=
  cbv beta delta [bind ret throw await observed createPicaService
    createOpenAIService publish_if new_Date_toISOString Date_now try_catch
    handler_try handler_catch research_and_action];
  cbn -[sendSSEUpdate createGitHubIssue parse_repo pretty String.append].

Ltac run_step :=
  match goal with
  | |- context [sendSSEUpdate ?e ?s ?d ?w] => rewrite (sendSSEUpdate_eq e s d w)
  | |- context [createGitHubIssue ?e ?t ?p ?w] =>
      let ga := fresh "ga" in
      let Hga := fresh "Hga" in
      destruct (createGitHubIssue_returns e t p w) as [ga Hga]; rewrite Hga
  | |- context [match env_createOpenAIService ?e with _ => _ end] =>
      destruct (env_createOpenAIService e) eqn:?
  | |- context [match env_PICA_SECRET ?e with _ => _ end] =>
      destruct (env_PICA_SECRET e) as [[|? ?]|] eqn:?
  | |- context [match generateResearch ?s ?q with _ => _ end] =>
      destruct (generateResearch s q) eqn:?
  | |- context [match generateGitHubIssueContent ?s ?f ?q with _ => _ end] =>
      destruct (generateGitHubIssueContent s f q) eqn:?
  | |- context [status_eqb (rr_status ?r) Failed] =>
      destruct (status_eqb (rr_status r) Failed) eqn:?
  end;
  run_simpl.

Lemma Run_eq env body w R R' L L' :
  Run env body w R' L' -> R' = R -> L' = L -> Run env body w R L.
Proof. now intros H <- <-. Qed.

Lemma status_failed s : status_eqb s Failed = true -> s = Failed.
Proof. now destruct s. Qed.

Lemma status_not_failed s : status_eqb s Failed = false -> s <> Failed.
Proof. now destruct s. Qed.

Ltac solve_side :=
  solve [ eassumption | reflexivity | congruence
        | apply status_failed; eassumption
        | apply status_not_failed; eassumption
        | match goal with H : _ = _ |- _ => rewrite H; reflexivity end ].

Ltac list_eq := cbn; rewrite ?app_nil_r, <- ?app_assoc; reflexivity.

Lemma trace_refl w : trace w = trace w ++ [].
Proof. now rewrite app_nil_r. Qed.

Lemma trace_log w w' l e :
  trace w' = trace w ++ l -> trace (log e w') = trace w ++ (l ++ [e]).
Proof. cbn. intros ->. now rewrite app_assoc. Qed.

Lemma trace_tick w w' l :
  trace w' = trace w ++ l -> trace (tick w') = trace w ++ l.
Proof. exact id. Qed.

Lemma trace_set_clients w w' l c :
  trace w' = trace w ++ l -> trace (set_clients c w') = trace w ++ l.
Proof. exact id. Qed.

Ltac trace_eq :=
  repeat first [ apply trace_log | apply trace_tick | apply trace_set_clients ];
  apply trace_refl.

Lemma research_and_action_run env body w :
  exists resp w' l,
    research_and_action env body w = (Return resp, w')
    /\ trace w' = trace w ++ l
    /\ Run env body w (Return resp) l.
Proof.
  destruct body as [[[|qa qs]|] [[|sa ss]|] repo];
  run_simpl; repeat run_step.
  all: eexists _, _, _; split; [reflexivity|split; [trace_eq|]].
  all: first
    [ apply run_rejected; reflexivity
    | eapply Run_eq;
      [ eapply run_failed; [reflexivity | reflexivity | econstructor; solve_side]
      | reflexivity | list_eq ]
    | eapply Run_eq;
      [ eapply run_completed; solve_side | reflexivity | list_eq ] ].
  Unshelve. all: exact EmptyString.
Qed.

(** Every run of the handler has one of the three shapes of [Run]; in
    particular the handler always answers. *)
Lemma run_shape env body w :
  Run env body w (response_of env body w) (effects_of env body w).
Proof.
  destruct (research_and_action_run env body w) as (resp & w' & l & E & T & R).
  unfold response_of, effects_of. rewrite E. cbn.
  now rewrite (effects_since_app _ _ _ T).
Qed.

(** The handler never raises past its boundary. *)
Lemma research_and_action_returns env body w :
  exists resp, response_of env body w = Return resp.
Proof.
  destruct (research_and_action_run env body w) as (resp & w' & l & E & _).
  exists resp. unfold response_of. now rewrite E.
Qed.

(** ** Reading the log *)

Lemma published_app t1 t2 : published (t1 ++ t2) = published t1 ++ published t2.
Proof. apply omap_app. Qed.

Lemma published_notes_supplied a s l :
  published (notes (Some (String a s)) l) = (fun m => (String a s, m)) <$> l.
Proof. induction l as [|m l IH]; cbn; [reflexivity|]. now f_equal. Qed.

Lemma invocations_app t1 t2 :
  invocations (t1 ++ t2) = invocations t1 ++ invocations t2.
Proof. apply List.filter_app. Qed.

Lemma invocations_notes sess l : invocations (notes sess l) = [].
Proof.
  destruct sess as [[|a s]|]; cbn; try reflexivity.
  induction l as [|m l IH]; cbn; [reflexivity | exact IH].
Qed.

Lemma in_invocations e t :
  In e t -> (forall sid m, e <> Published sid m) -> In e (invocations t).
Proof.
  intros Hin Hne. apply List.filter_In. split; [exact Hin|].
  destruct e; try reflexivity. now destruct (Hne sessionId data).
Qed.

Lemma truthy_supplied sess sid :
  sess = Some sid -> sid <> "" -> exists a s, sess = Some (String a s).
Proof. intros -> H. destruct sid as [|a s]; [easy | eauto]. Qed.

Lemma invocations_cons e t :
  invocations (e :: t) = invocations [e] ++ invocations t.
Proof. apply (invocations_app [e] t). Qed.

Lemma published_cons e t :
  published (e :: t) = published [e] ++ published t.
Proof. apply (published_app [e] t). Qed.

Lemma invocations_one e :
  invocations [e] = match e with Published _ _ => [] | _ => [e] end.
Proof. now destruct e. Qed.

Lemma published_one e :
  published [e] = match e with Published sid m => [(sid, m)] | _ => [] end.
Proof. now destruct e. Qed.

(** Normalise [published] and [invocations] of a log built from [notes],
    single calls, [++] and [::]. *)
Ltac read_at H :=
  repeat first
    [ rewrite invocations_app in H
    | rewrite published_app in H
    | rewrite invocations_notes in H
    | rewrite published_notes_supplied in H
    | match type of H with
      | context [invocations (?e :: ?t)] =>
          lazymatch t with
          | [] => rewrite (invocations_one e) in H
          | _ => rewrite (invocations_cons e t) in H
          end
      | context [published (?e :: ?t)] =>
          lazymatch t with
          | [] => rewrite (published_one e) in H
          | _ => rewrite (published_cons e t) in H
          end
      end ];
  cbn in H.

Ltac read_goal :=
  repeat first
    [ rewrite invocations_app
    | rewrite published_app
    | rewrite invocations_notes
    | rewrite published_notes_supplied
    | match goal with
      | |- context [invocations (?e :: ?t)] =>
          lazymatch t with
          | [] => rewrite (invocations_one e)
          | _ => rewrite (invocations_cons e t)
          end
      | |- context [published (?e :: ?t)] =>
          lazymatch t with
          | [] => rewrite (published_one e)
          | _ => rewrite (published_cons e t)
          end
      end ];
  cbn.

Lemma session_of_supplied env body w sid :
  body_sessionId body = Some sid -> sid <> "" -> session_of env body w = sid.
Proof. unfold session_of. intros -> H. now destruct sid. Qed.

Lemma truthy_Some s : s <> "" -> truthy (Some s) = true.
Proof. now destruct s. Qed.

(** ** The empty query *)

(** C5: a request whose query is the empty string is answered with status
    400 and leaves the world as it was: no collaborator is called (neither
    research, nor issue formatting, nor issue creation), no event is
    published, not even the clock is read. *)
Theorem empty_query_rejected env sessionId githubRepo w :
  let body := {| body_query := Some ""; body_sessionId := sessionId;
                 body_githubRepo := githubRepo |} in
  research_and_action env body w
  = (Return {| http_status := 400;
               http_body := ValidationJson "Query is required"
                              "Please provide a research query" |}, w)
  /\ effects_of env body w = [].
Proof.
  split; [reflexivity|].
  unfold effects_of. cbn. unfold effects_since. apply drop_all.
Qed.

(** ** The success path *)

(** C1: for a request with a non-empty query and a session id, when the
    research collaborator can be built, answers with a result that is not
    failed and formats the issue, and the Pica service can be built, the
    events handed to the publisher are, in this order and all addressed to
    that session: status/analyzing, status/researching, status/planning,
    status/executing, complete.  This holds whether or not the issue
    creation itself succeeds. *)
Theorem stage_events_in_order env body w query sid svc rr ic :
  body_query body = Some query -> query <> "" ->
  body_sessionId body = Some sid -> sid <> "" ->
  env_createOpenAIService env = Return svc ->
  truthy (env_PICA_SECRET env) = true ->
  generateResearch svc (research_query query sid) = Return rr ->
  rr_status rr <> Failed ->
  generateGitHubIssueContent svc (rr_findings rr) query = Return ic ->
  tags (effects_of env body w)
  = [ (sid, (TStatus, Some Analyzing));
      (sid, (TStatus, Some Researching));
      (sid, (TStatus, Some Planning));
      (sid, (TStatus, Some Executing));
      (sid, (TComplete, Some StepComplete)) ].
Proof.
  intros Hq Hqne Hs Hsne Hsvc Hsecret Hrr Hok Hic.
  pose proof (session_of_supplied env body w sid Hs Hsne) as Hsid.
  pose proof (run_shape env body w) as R.
  inversion R as [Hrej | q done e t t' Hq' _ Hstop | q svc' sec rr' ic' ga at_call
                    t1 t2 t3 t4 t5 Hq' _ Hsvc' _ _ Hrr' _ Hic' _ Hresp Heff].
  - rewrite Hq in Hrej. now rewrite truthy_Some in Hrej.
  - rewrite Hq in Hq'. injection Hq' as <-. rewrite Hsid in Hstop.
    inversion Hstop; subst; congruence.
  - destruct (truthy_supplied _ _ Hs Hsne) as (a & s & Hs').
    unfold tags. rewrite Hs'. read_goal.
    rewrite Hs in Hs'. now injection Hs' as ->.
Qed.

Ltac read_log :=
  repeat match goal with
         | H : body_sessionId _ = _ |- _ => rewrite H in *
         end;
  repeat match goal with
         | H : In _ _ |- _ => progress read_at H
         end;
  read_goal.

(** ** A request without a session id *)

(** The handler does not tell an empty [sessionId] from a missing one:
    both are falsy under [if (sessionId)] and [sessionId || ...]. *)
Lemma empty_session_is_no_session env query githubRepo w :
  research_and_action env
    {| body_query := query; body_sessionId := Some "";
       body_githubRepo := githubRepo |} w
  = research_and_action env
      {| body_query := query; body_sessionId := None;
         body_githubRepo := githubRepo |} w.
Proof. now destruct query as [[|c q]|]. Qed.

(** C10, as the code has it: when the request body has no
    [sessionId], nothing is handed to the publisher during the run,
    whatever the collaborators do: no status, complete or error event, to
    any addressee.  The identifier the handler generates,
    [session_<Date.now()>], addresses no event; it is the [sessionId] of the
    [ResearchQuery] of every research call the run makes, and when the
    collaborators succeed the run is answered with the 200 response, which
    carries it as [sessionId]. *)
Theorem generated_session_id_addresses_no_event env body w :
  body_sessionId body = None ->
  let generated := "session_" +:+ pretty (env_now env (clock w)) in
  published (effects_of env body w) = []
  /\ (forall q r,
        In (Researched q r) (effects_of env body w) ->
        rq_sessionId q = Some generated)
  /\ (forall b,
        response_of env body w
        = Return {| http_status := 200; http_body := SuccessJson b |} ->
        sb_sessionId b = generated)
  /\ (forall query svc rr ic,
        body_query body = Some query -> query <> "" ->
        env_createOpenAIService env = Return svc ->
        truthy (env_PICA_SECRET env) = true ->
        generateResearch svc (research_query query generated) = Return rr ->
        rr_status rr <> Failed ->
        generateGitHubIssueContent svc (rr_findings rr) query = Return ic ->
        In (Researched (research_query query generated) (Return rr))
           (effects_of env body w)
        /\ exists b,
             response_of env body w
             = Return {| http_status := 200; http_body := SuccessJson b |}
             /\ sb_sessionId b = generated).
Proof.
  intros Hs. cbv zeta.
  assert (session_of env body w = "session_" +:+ pretty (env_now env (clock w)))
    as Hsid by (unfold session_of; now rewrite Hs).
  pose proof (run_shape env body w) as R.
  inversion R as [Hrej Hresp Heff | q done e t t' Hq' _ Hstop Hresp Heff
                 | q svc' sec rr' ic' ga at_call
                    t1 t2 t3 t4 t5 Hq' _ Hsvc' _ _ Hrr' Hnot Hic' _ Hresp Heff].
  - split; [reflexivity|]. split; [intros q r []|].
    split; [intros b Hb; discriminate Hb|].
    intros query svc rr ic Hq Hqne. rewrite Hq in Hrej.
    now rewrite truthy_Some in Hrej.
  - split; [inversion Hstop; subst; read_log; reflexivity|].
    split.
    { intros q0 r0 Hin. apply in_invocations in Hin; [|discriminate].
      rewrite <- Hsid.
      inversion Hstop; subst; read_at Hin;
        repeat (destruct Hin as [Hin|Hin]; try discriminate Hin);
        try (now destruct Hin); now injection Hin as <- <-. }
    split; [intros b Hb; discriminate Hb|].
    intros query svc rr ic Hq Hqne Hsvc Hsec Hrr Hok Hic.
    rewrite Hq in Hq'. injection Hq' as <-. rewrite Hsid in Hstop.
    inversion Hstop; subst; congruence.
  - split; [read_log; reflexivity|].
    split.
    { intros q0 r0 Hin. apply in_invocations in Hin; [|discriminate].
      rewrite <- Hsid. read_at Hin.
      repeat (destruct Hin as [Hin|Hin]; try discriminate Hin);
        try (now destruct Hin); now injection Hin as <- <-. }
    split; [intros b Hb; injection Hb as <-; exact Hsid|].
    intros query svc rr ic Hq Hqne Hsvc Hsec Hrr Hok Hic.
    rewrite Hq in Hq'. injection Hq' as <-.
    rewrite Hsid in Hrr'.
    assert (svc' = svc) as -> by congruence.
    assert (rr' = rr) as -> by congruence.
    split.
    + rewrite Hsid. apply in_app_iff. right. left. reflexivity.
    + eexists. split; [reflexivity|]. exact Hsid.
Qed.

(** C10 as stated fails: the generated identifier does not appear in the
    response alone.  For a request without [sessionId] the research
    collaborator is called with a [ResearchQuery] whose [sessionId] is the
    generated identifier, the same one the 200 response carries. *)
Lemma generated_session_id_reaches_research :
  let run := Sample.body (Some "Research X") None None in
  (exists r,
     In (Researched {| rq_query := "Research X"; rq_userId := None;
                       rq_sessionId := Some "session_1700000000000" |} r)
        (effects_of Sample.env_ok run Sample.w0))
  /\ (exists b,
        response_of Sample.env_ok run Sample.w0
        = Return {| http_status := 200; http_body := SuccessJson b |}
        /\ sb_sessionId b = "session_1700000000000")
  /\ published (effects_of Sample.env_ok run Sample.w0) = [].
Proof.
  cbv zeta. split; [|split].
  - eexists. vm_compute. left. reflexivity.
  - eexists. split; [vm_compute; reflexivity|]. reflexivity.
  - vm_compute. reflexivity.
Qed.

(** ** A failed action *)

(** C2: whenever a run gets as far as calling the issue creation and that
    call returns an action result with [success = false], the response is
    the 200 response with [success: true], its [actions] hold exactly that
    failed result (so [actions[0].success] is false), and its summary counts
    0 successful actions and has no issue URL. *)
Theorem failed_action_keeps_workflow_success env body w params r :
  In (IssueCreation params (Return r)) (effects_of env body w) ->
  ar_success r = false ->
  exists b,
    response_of env body w
    = Return {| http_status := 200; http_body := SuccessJson b |}
    /\ sb_success b = true
    /\ sb_actions b !! 0%nat = Some r
    /\ sb_actions b = [r]
    /\ successfulActions (sb_summary b) = 0%nat
    /\ githubIssueUrl (sb_summary b) = None.
Proof.
  intros Hin Hfail.
  apply in_invocations in Hin; [|discriminate].
  pose proof (run_shape env body w) as R.
  inversion R as [Hrej Hresp Heff | q done e t t' Hq' _ Hstop Hresp Heff
                 | q svc' sec rr' ic' ga at_call
                    t1 t2 t3 t4 t5 Hq' _ Hsvc' _ _ Hrr' _ Hic' _ Hresp Heff].
  - rewrite <- Heff in Hin. destruct Hin.
  - rewrite <- Heff in Hin.
    inversion Hstop; subst; read_log;
      repeat (destruct Hin as [Hin|Hin]; try discriminate Hin); destruct Hin.
  - rewrite <- ?Heff in Hin. read_log.
    destruct Hin as [Hin|[Hin|[Hin|[]]]]; try discriminate Hin.
    injection Hin as _ ->.
    eexists. split; [reflexivity|]. cbn. rewrite Hfail. now repeat split.
Qed.

(** ** Terminal events *)

(** C3: for a request that passes validation and carries a session id,
    the events handed to the publisher are all addressed to that session,
    the last of them is a [complete] or an [error] event, and no event
    before it is one: exactly one terminal event, at the end. *)
Theorem one_terminal_event env body w query sid :
  body_query body = Some query -> query <> "" ->
  body_sessionId body = Some sid -> sid <> "" ->
  exists before last,
    published (effects_of env body w) = before ++ [(sid, last)]
    /\ terminal last = true
    /\ Forall (fun p => fst p = sid /\ terminal (snd p) = false) before.
Proof.
  intros Hq Hqne Hs Hsne.
  destruct (truthy_supplied _ _ Hs Hsne) as (a & s & Hs').
  assert (sid = String a s) as -> by congruence. clear Hs'.
  pose proof (run_shape env body w) as R.
  inversion R as [Hrej Hresp Heff | q done e t t' Hq' _ Hstop Hresp Heff
                 | q svc' sec rr' ic' ga at_call
                    t1 t2 t3 t4 t5 Hq' _ Hsvc' _ _ Hrr' _ Hic' _ Hresp Heff].
  - rewrite Hq in Hrej. now rewrite truthy_Some in Hrej.
  - inversion Hstop; subst; read_log;
      match goal with
      | |- exists before last, ?l = _ /\ _ =>
          exists (removelast l), (snd (List.last l (EmptyString, error_event "" "")))
      end; cbn; repeat split; repeat constructor.
  - read_log.
    match goal with
    | |- exists before last, ?l = _ /\ _ =>
        exists (removelast l), (snd (List.last l (EmptyString, error_event "" "")))
    end; cbn; repeat split; repeat constructor.
Qed.

(** ** Issue creation *)

(** The description computed in the catch block is empty only when it is
    the message of the caught error, passed through. *)
Lemma failure_message_empty params error :
  failure_message params error = "" ->
  err_response error = None /\ err_request error = false
  /\ err_message error = "".
Proof.
  unfold failure_message.
  destruct (err_response error) as [r|].
  - destruct (er_status r =? 401); [discriminate|].
    destruct (er_status r =? 404); discriminate.
  - destruct (err_request error); [discriminate | auto].
Qed.

Lemma createGitHubIssue_gated env this params w :
  exists r, createGitHubIssue env this params w = (Return r, tick w)
            /\ gated env this params r.
Proof.
  unfold createGitHubIssue, getGitHubConnection, try_catch, bind, await,
    new_Date_toISOString, ret, throw, gated.
  destruct (env_client_get env _ _) as [[[[|row l]|]]|e]; cbn;
    try (destruct (status_is e 401); cbn);
    try (destruct (String.eqb _ "mcp-fallback"); cbn);
    try (destruct (env_client_post env _ _ _ _) as [created|e'] eqn:Hpost; cbn);
    eexists; (split; [reflexivity|]); cbn;
    (split; [intros Hs; try discriminate Hs | intros Hs; try discriminate Hs]);
    try (split; [reflexivity|eexists; repeat split; reflexivity]);
    (split; [reflexivity|]); eexists; (split; [reflexivity|]);
    try discriminate.
  all: intros Hmsg; apply failure_message_empty in Hmsg; eauto 10.
Qed.

(** C9: for every service object and every input
    [{title, body, owner, repo}], [createGitHubIssue] returns an action
    result and does not raise, and in that result exactly one of [result]
    and [error] is set, by [success]: with [success = true] the result is
    set and the error absent; with [success = false] the result is absent
    and the error is a non-empty description.  The one assumption is on the
    HTTP client: a rejection of [client.post] that has neither a response
    nor a request carries a message, as the errors of the axios instance
    built by the constructor do; that message is what the catch block
    passes on. *)
Theorem createGitHubIssue_total env this params w :
  (forall url data key e,
     env_client_post env (secret (config this)) url data key = Raise e ->
     err_response e = None -> err_request e = false ->
     err_message e <> "") ->
  exists r,
    createGitHubIssue env this params w = (Return r, tick w)
    /\ (is_Some (ar_result r) <-> ar_error r = None)
    /\ (ar_success r = true -> is_Some (ar_result r) /\ ar_error r = None)
    /\ (ar_success r = false ->
          ar_result r = None
          /\ exists msg, ar_error r = Some msg /\ msg <> "").
Proof.
  intros Hclient.
  destruct (createGitHubIssue_gated env this params w) as (r & E & Hok & Hko).
  exists r. split; [exact E|].
  assert (ar_success r = true -> is_Some (ar_result r) /\ ar_error r = None)
    as Hok'.
  { intros Hs. destruct (Hok Hs) as (He & res & Hres & _). split; [|exact He].
    now exists res. }
  assert (ar_success r = false ->
          ar_result r = None /\ exists msg, ar_error r = Some msg /\ msg <> "")
    as Hko'.
  { intros Hs. destruct (Hko Hs) as (Hnone & msg & Hmsg & Hempty).
    split; [exact Hnone|]. exists msg. split; [exact Hmsg|].
    intros Hm. destruct (Hempty Hm) as (url & data & key & e & Hp & Hr & Hq & He).
    exact (Hclient url data key e Hp Hr Hq He). }
  split; [|split; [exact Hok' | exact Hko']].
  destruct (ar_success r).
  - destruct (Hok' eq_refl) as [Hres Herr]. now split.
  - destruct (Hko' eq_refl) as (Hnone & msg & Hmsg & _).
    rewrite Hnone, Hmsg. split; [intros [x Hx]; discriminate Hx | discriminate].
Qed.

(** ** The complete event and the response *)

(** C8: for a request with a session id whose run ends in the 200
    response, the last event handed to the publisher is the [complete]
    event for that session, and its [result] holds the same research result
    and the same list of action results as the response's [research] and
    [actions].  The response adds the summary derived from them: the
    number of actions, the number of successful ones, and the URL of the
    created issue when the action succeeded, no URL otherwise. *)
Theorem complete_event_mirrors_response env body w sid b :
  body_sessionId body = Some sid -> sid <> "" ->
  response_of env body w
  = Return {| http_status := 200; http_body := SuccessJson b |} ->
  exists before ev a,
    published (effects_of env body w) = before ++ [(sid, ev)]
    /\ sse_type ev = TComplete
    /\ sse_result ev = Some {| sr_research := sb_research b;
                               sr_actions := sb_actions b |}
    /\ sb_success b = true
    /\ sb_actions b = [a]
    /\ actionsExecuted (sb_summary b) = length (sb_actions b)
    /\ successfulActions (sb_summary b)
       = length (List.filter ar_success (sb_actions b))
    /\ (ar_success a = true ->
          exists res, ar_result a = Some res
                      /\ githubIssueUrl (sb_summary b) = Some (issueUrl res))
    /\ (ar_success a = false -> githubIssueUrl (sb_summary b) = None).
Proof.
  intros Hs Hsne Hresp.
  destruct (truthy_supplied _ _ Hs Hsne) as (c & s & Hs').
  assert (sid = String c s) as -> by congruence. clear Hs'.
  pose proof (run_shape env body w) as R. rewrite Hresp in R.
  inversion R as [ | | q svc' sec rr' ic' ga at_call
                    t1 t2 t3 t4 t5 Hq' _ Hsvc' _ _ Hrr' _ Hic' Hga Hb Heff].
  subst b. rewrite Hs. read_goal.
  destruct (createGitHubIssue_gated env
              {| config := {| secret := sec;
                              serverUrl := Some "https://api.picaos.com/v1" |} |}
              (issue_params ic' (body_githubRepo body)) at_call)
    as (ga' & Hga' & Hok & _).
  rewrite Hga in Hga'. injection Hga' as <-.
  eexists [_; _; _; _], _, ga. cbn.
  repeat split.
  - intros Hsucc. destruct (Hok Hsucc) as (_ & res & Hres & _).
    exists res. now rewrite Hsucc, Hres.
  - now intros ->.
Qed.

(** ** A failed research result *)

(** C6, as the code has it: when the request carries a session id and the
    research collaborator returns a result whose status is [failed], the
    response is the 500 response with [success: false] and the findings
    text as [details], and the events handed to the publisher are
    status/analyzing, status/researching and one [error] event carrying the
    findings text: nothing follows status/researching but that error
    event. *)
Theorem research_failure_reported env body w sid q rr :
  body_sessionId body = Some sid -> sid <> "" ->
  In (Researched q (Return rr)) (effects_of env body w) ->
  rr_status rr = Failed ->
  (exists t,
     response_of env body w
     = Return {| http_status := 500;
                 http_body := ErrorJson
                   {| eb_success := false;
                      eb_error := "Research and action workflow failed";
                      eb_details := rr_findings rr;
                      eb_timestamp := t |} |})
  /\ (exists t1 t2 t3,
        published (effects_of env body w)
        = [ (sid, analyzing t1); (sid, researching t2);
            (sid, error_event (rr_findings rr) t3) ]).
Proof.
  intros Hs Hsne Hin Hfailed.
  destruct (truthy_supplied _ _ Hs Hsne) as (c & s & Hs').
  assert (sid = String c s) as -> by congruence. clear Hs'.
  apply in_invocations in Hin; [|discriminate].
  pose proof (run_shape env body w) as R.
  inversion R as [Hrej Hresp Heff | q' done e t t' Hq' _ Hstop Hresp Heff
                 | q' svc' sec rr' ic' ga at_call
                    t1 t2 t3 t4 t5 Hq' _ Hsvc' _ _ Hrr' Hnot Hic' _ Hresp Heff];
    rewrite <- ?Heff in Hin.
  - destruct Hin.
  - inversion Hstop; subst; read_log;
      repeat (destruct Hin as [Hin|Hin]; try discriminate Hin);
      try (now destruct Hin); injection Hin as _ <-; try contradiction.
    split; [eexists; reflexivity | eexists _, _, _; reflexivity].
  - read_log.
    repeat (destruct Hin as [Hin|Hin]; try discriminate Hin); try (now destruct Hin).
    injection Hin as _ <-. contradiction.
Qed.

(** C6 as stated fails for a request without a session id: the research
    collaborator returns a failed result with findings "upstream
    unavailable", the response is the 500 response carrying that text, and
    no event at all is handed to the publisher, so no [error] event is. *)
Lemma research_failure_without_session_is_silent :
  let run := Sample.body (Some "Research X") None (Some "acme/widgets") in
  let log := effects_of Sample.env_research_fails run Sample.w0 in
  (exists q rr, log = [Researched q (Return rr)]
                /\ rr_status rr = Failed
                /\ rr_findings rr = "upstream unavailable")
  /\ (exists t,
        response_of Sample.env_research_fails run Sample.w0
        = Return {| http_status := 500;
                    http_body := ErrorJson
                      {| eb_success := false;
                         eb_error := "Research and action workflow failed";
                         eb_details := "upstream unavailable";
                         eb_timestamp := t |} |})
  /\ published log = [].
Proof.
  cbv zeta. split; [|split].
  - eexists _, _. split; [vm_compute; reflexivity|]. split; reflexivity.
  - eexists. vm_compute. reflexivity.
  - vm_compute. reflexivity.
Qed.

(** ** The repository descriptor *)

Example split_slash_examples :
  split_slash "acme/widgets" = ["acme"; "widgets"]
  /\ split_slash "widgets" = ["widgets"]
  /\ split_slash "" = [""]
  /\ split_slash "acme/" = ["acme"; ""]
  /\ split_slash "/widgets" = [""; "widgets"]
  /\ split_slash "a//b/c" = ["a"; ""; "b"; "c"].
Proof. repeat split. Qed.

Example parse_repo_examples :
  parse_repo "acme/widgets" = ("acme", "widgets")
  /\ parse_repo "test-repo" = ("your-username", "test-repo")
  /\ parse_repo "" = ("your-username", "")
  /\ parse_repo "/widgets" = ("", "widgets")
  /\ parse_repo "acme/" = ("your-username", "acme/")
  /\ parse_repo "acme/widgets/extra" = ("acme", "widgets").
Proof. repeat split. Qed.

Lemma split_slash_free s : slash_free s = true -> split_slash s = [s].
Proof.
  induction s as [|c s IH]; cbn; [reflexivity|].
  destruct (Ascii.eqb c "/"); cbn; [discriminate|].
  intros H. now rewrite (IH H).
Qed.

Lemma split_slash_append owner rest :
  slash_free owner = true ->
  split_slash (owner +:+ "/" +:+ rest) = owner :: split_slash rest.
Proof.
  induction owner as [|c s IH]; [reflexivity|].
  change (String c s +:+ "/" +:+ rest) with (String c (s +:+ "/" +:+ rest)).
  cbn [split_slash slash_free].
  destruct (Ascii.eqb c "/"); cbn [negb andb]; [discriminate|].
  intros H. now rewrite (IH H).
Qed.

Lemma parse_repo_owner_repo owner repo :
  slash_free owner = true -> slash_free repo = true -> repo <> "" ->
  parse_repo (owner +:+ "/" +:+ repo) = (owner, repo).
Proof.
  intros Ho Hr Hne. unfold parse_repo.
  rewrite (split_slash_append _ _ Ho), (split_slash_free _ Hr). cbn.
  now destruct repo.
Qed.

Lemma parse_repo_bare name :
  slash_free name = true -> parse_repo name = ("your-username", name).
Proof.
  intros H. unfold parse_repo. now rewrite (split_slash_free _ H).
Qed.

(** Only the first two segments of a descriptor are looked at. *)
Lemma parse_repo_extra_segments owner repo rest :
  slash_free owner = true -> slash_free repo = true -> repo <> "" ->
  parse_repo (owner +:+ "/" +:+ repo +:+ "/" +:+ rest) = (owner, repo).
Proof.
  intros Ho Hr Hne. unfold parse_repo.
  rewrite (split_slash_append _ _ Ho), (split_slash_append _ _ Hr). cbn.
  now destruct repo.
Qed.

(** A descriptor that ends in its first ["/"] falls back to the bare-name
    case. *)
Lemma parse_repo_empty_repo owner :
  slash_free owner = true ->
  parse_repo (owner +:+ "/") = ("your-username", owner +:+ "/").
Proof.
  intros Ho. unfold parse_repo.
  change (owner +:+ "/") with (owner +:+ "/" +:+ "").
  now rewrite (split_slash_append owner "" Ho).
Qed.

(** C7, as the code has it: the issue creation is called with the owner
    and repo parsed from the request's descriptor.  For a descriptor
    [owner/repo] whose two parts contain no ["/"] and whose repo part is not
    empty, the call receives that owner and that repo, and the [repository]
    of a result it returns is the descriptor itself.  For a descriptor
    without ["/"] the owner is "your-username" and the repo is the whole
    descriptor.  Without a descriptor, the repo is "test-repo" (and the
    owner "your-username"). *)
Theorem repository_descriptor_parsed env body w params r :
  In (IssueCreation params r) (effects_of env body w) ->
  (forall owner repo,
     body_githubRepo body = Some (owner +:+ "/" +:+ repo) ->
     slash_free owner = true -> slash_free repo = true -> repo <> "" ->
     gp_owner params = owner /\ gp_repo params = repo
     /\ forall a res, r = Return a -> ar_result a = Some res ->
                      repository res = owner +:+ "/" +:+ repo)
  /\ (forall name,
        body_githubRepo body = Some name -> slash_free name = true ->
        gp_owner params = "your-username" /\ gp_repo params = name)
  /\ (body_githubRepo body = None ->
        gp_owner params = "your-username" /\ gp_repo params = "test-repo").
Proof.
  intros Hin.
  apply in_invocations in Hin; [|discriminate].
  assert (exists ic a secret at_call,
            params = issue_params ic (body_githubRepo body)
            /\ r = Return a
            /\ createGitHubIssue env
                 {| config := {| secret := secret;
                                 serverUrl := Some "https://api.picaos.com/v1" |} |}
                 params at_call = (Return a, tick at_call))
    as (ic & a & secret & at_call & -> & -> & Hcall).
  { pose proof (run_shape env body w) as R.
    inversion R as [Hrej Hresp Heff | q' done e t t' Hq' _ Hstop Hresp Heff
                   | q' svc' sec rr' ic' ga at_call
                      t1 t2 t3 t4 t5 Hq' _ Hsvc' _ _ Hrr' Hnot Hic' Hga Hresp Heff];
      rewrite <- ?Heff in Hin.
    - destruct Hin.
    - inversion Hstop; subst; read_log;
        repeat (destruct Hin as [Hin|Hin]; try discriminate Hin); destruct Hin.
    - read_log.
      repeat (destruct Hin as [Hin|Hin]; try discriminate Hin); try (now destruct Hin).
      injection Hin as <- <-. eauto 10. }
  destruct (createGitHubIssue_gated env
              {| config := {| secret := secret;
                              serverUrl := Some "https://api.picaos.com/v1" |} |}
              (issue_params ic (body_githubRepo body)) at_call)
    as (a' & Ha' & Hok & Hko).
  rewrite Hcall in Ha'. injection Ha' as <-.
  split; [|split].
  - intros owner repo Hd Ho Hr Hne. cbn. rewrite Hd. cbn.
    rewrite (parse_repo_owner_repo _ _ Ho Hr Hne). cbn.
    split; [reflexivity|]. split; [reflexivity|].
    intros a0 res [= <-] Hres.
    destruct (ar_success a) eqn:Hs.
    + destruct (Hok eq_refl) as (_ & res' & Hres' & _ & Hrepo).
      rewrite Hres in Hres'. injection Hres' as <-.
      rewrite Hrepo. cbn. rewrite Hd. cbn.
      now rewrite (parse_repo_owner_repo _ _ Ho Hr Hne).
    + destruct (Hko eq_refl) as (Hnone & _). congruence.
  - intros name Hd Hfree. cbn. rewrite Hd. cbn.
    now rewrite (parse_repo_bare _ Hfree).
  - intros Hd. cbn. rewrite Hd. cbn. now split.
Qed.

(** C7 as stated fails on descriptors that contain a ["/"] but are not of
    the shape above.  With "acme/widgets/extra" the call receives owner
    "acme" and repo "widgets" and the result's repository is
    "acme/widgets", not the descriptor.  With "acme/" the owner is the
    placeholder and the repo is the whole descriptor. *)
Lemma descriptor_with_slash_not_preserved :
  let seen (d : string) :=
    (fun c => (gp_owner (fst c), gp_repo (fst c), repository_of (snd c)))
      <$> issue_calls
            (effects_of Sample.env_ok
               (Sample.body (Some "Research X") (Some "s1") (Some d)) Sample.w1) in
  seen "acme/widgets/extra" = [("acme", "widgets", Some "acme/widgets")]
  /\ seen "acme/" = [("your-username", "acme/", Some "your-username/acme/")].
Proof. cbv zeta. split; vm_compute; reflexivity. Qed.

(** ** The registry and the publisher *)

(** A connection registers its stream under the session id, replacing an
    earlier one, and the first frame on it is the [connected] event. *)
Lemma sse_connect_registers env sid w :
  exists ts,
    sseClients (snd (sse_connect env sid w)) !! sid
    = Some {| res_writable := true;
              res_written :=
                [sse_frame env
                   {| sse_type := TConnected; sse_step := None;
                      sse_message := Some "Connected to research stream";
                      sse_result := None; sse_timestamp := ts |}] |}.
Proof. eexists. cbn. now rewrite lookup_insert_eq. Qed.

Lemma sse_connect_other env sid sid' w :
  sid <> sid' ->
  sseClients (snd (sse_connect env sid w)) !! sid' = sseClients w !! sid'.
Proof. intros H. cbn. now rewrite !lookup_insert_ne. Qed.

Lemma sse_close_unregisters sid w :
  sseClients (snd (sse_close sid w)) !! sid = None.
Proof. cbn. apply lookup_delete_eq. Qed.

(** An event published to an open stream is appended to it as one frame. *)
Lemma sendSSEUpdate_delivers env sid data w client :
  sseClients w !! sid = Some client -> res_writable client = true ->
  sseClients (snd (sendSSEUpdate env sid data w)) !! sid
  = Some {| res_writable := true;
            res_written := res_written client ++ [sse_frame env data] |}.
Proof.
  intros Hc Hw. rewrite sendSSEUpdate_eq. cbn. unfold relay, write.
  rewrite Hc, Hw. cbn. apply lookup_insert_eq.
Qed.

Lemma blind_ret {A} (a : A) : blind (ret a).
Proof. intros w1 w2 H. now split. Qed.

Lemma blind_throw {A} e : blind (@throw A e).
Proof. intros w1 w2 H. now split. Qed.

Lemma blind_await {A} (c : Completion A) : blind (await c).
Proof. intros w1 w2 H. now split. Qed.

Lemma blind_bind {A B} (m : M A) (k : A -> M B) :
  blind m -> (forall a, blind (k a)) -> blind (bind m k).
Proof.
  intros Hm Hk w1 w2 H. unfold bind.
  destruct (Hm w1 w2 H) as [Hr Hw].
  destruct (m w1) as [[a1|e1] w1'], (m w2) as [[a2|e2] w2']; cbn in *;
    try discriminate Hr.
  - injection Hr as <-. now apply Hk.
  - injection Hr as <-. now split.
Qed.

Lemma blind_try_catch {A} (m : M A) (h : JsError -> M A) :
  blind m -> (forall e, blind (h e)) -> blind (try_catch m h).
Proof.
  intros Hm Hh w1 w2 H. unfold try_catch.
  destruct (Hm w1 w2 H) as [Hr Hw].
  destruct (m w1) as [[a1|e1] w1'], (m w2) as [[a2|e2] w2']; cbn in *;
    try discriminate Hr.
  - injection Hr as <-. now split.
  - injection Hr as <-. now apply Hh.
Qed.

Lemma blind_observed {A} (mk : Completion A -> Effect) (m : M A) :
  blind m -> blind (observed mk m).
Proof.
  intros Hm w1 w2 H. unfold observed.
  destruct (Hm w1 w2 H) as [Hr [Hc Ht]].
  destruct (m w1) as [r1 w1'], (m w2) as [r2 w2']; cbn in *. subst r2.
  split; [reflexivity|]. split; cbn; congruence.
Qed.

Lemma blind_Date_now env : blind (Date_now env).
Proof.
  intros w1 w2 [Hc Ht]. unfold Date_now. cbn. rewrite Hc.
  split; [reflexivity|]. split; cbn; congruence.
Qed.

Lemma blind_new_Date env : blind (new_Date_toISOString env).
Proof.
  intros w1 w2 [Hc Ht]. unfold new_Date_toISOString. cbn. rewrite Hc.
  split; [reflexivity|]. split; cbn; congruence.
Qed.

Lemma blind_sendSSEUpdate env sid data : blind (sendSSEUpdate env sid data).
Proof.
  intros w1 w2 [Hc Ht]. rewrite !sendSSEUpdate_eq. cbn.
  split; [reflexivity|]. split; cbn; congruence.
Qed.

Ltac blind_step :=
  first
    [ apply blind_ret | apply blind_throw | apply blind_await
    | apply blind_Date_now | apply blind_new_Date | apply blind_sendSSEUpdate
    | apply blind_observed
    | apply blind_bind; [|intros ?]
    | apply blind_try_catch; [|intros ?]
    | match goal with
      | |- blind (match ?x with _ => _ end) => destruct x
      end ].

Lemma blind_createGitHubIssue env this params :
  blind (createGitHubIssue env this params).
Proof.
  unfold createGitHubIssue, getGitHubConnection. repeat blind_step.
Qed.

Lemma blind_research_and_action env body :
  blind (research_and_action env body).
Proof.
  unfold research_and_action, handler_try, handler_catch, publish_if,
    createOpenAIService, createPicaService.
  cbv zeta.
  repeat first [ apply blind_createGitHubIssue | blind_step ].
Qed.

(** C4: [sendSSEUpdate] returns normally for every session id, every
    event and every state of the registry; it is a plain function of the
    state, with nothing to wait for.  When no stream is registered under
    the session id (none ever was, or it was removed when its connection
    closed) the call changes nothing but the observation log: a silent
    no-op.  When a stream is registered and the write fails, the call
    returns all the same and the failure leaves no mark.  And nothing of
    the registry reaches the workflow: two runs of the handler from states
    that differ only in their registries give the same response and make
    the same calls. *)
Theorem publish_is_fire_and_forget env sessionId data w :
  fst (sendSSEUpdate env sessionId data w) = Return tt
  /\ (sseClients w !! sessionId = None ->
        snd (sendSSEUpdate env sessionId data w)
        = log (Published sessionId data) w)
  /\ snd (sendSSEUpdate env sessionId data (snd (sse_close sessionId w)))
     = log (Published sessionId data) (snd (sse_close sessionId w))
  /\ (forall client,
        sseClients w !! sessionId = Some client ->
        res_writable client = false ->
        snd (sendSSEUpdate env sessionId data w)
        = log (Published sessionId data) w)
  /\ (forall body w',
        agree w w' ->
        response_of env body w = response_of env body w'
        /\ effects_of env body w = effects_of env body w').
Proof.
  assert (forall v, sseClients v !! sessionId = None ->
            snd (sendSSEUpdate env sessionId data v)
            = log (Published sessionId data) v) as Hnone.
  { intros v Hv. rewrite sendSSEUpdate_eq. cbn. unfold relay. rewrite Hv.
    now destruct v. }
  split; [now rewrite sendSSEUpdate_eq|].
  split; [apply Hnone|].
  split; [apply Hnone; cbn; apply lookup_delete_eq|].
  split.
  - intros client Hc Hw. rewrite sendSSEUpdate_eq. cbn. unfold relay, write.
    rewrite Hc, Hw. cbn. rewrite (insert_id _ _ _ Hc). now destruct w.
  - intros body w' H.
    destruct (blind_research_and_action env body w w' H) as [Hr [Hc Ht]].
    split; [exact Hr|]. unfold effects_of, effects_since.
    destruct H as [_ H]. now rewrite Ht, H.
Qed.

(** ** Closed instances *)

Module Instances.
Import Sample.

Lemma stage_events_in_order_witness :
  tags (effects_of env_ok
          (body (Some "Research X") (Some "s1") (Some "acme/widgets")) w1)
  = [ ("s1", (TStatus, Some Analyzing));
      ("s1", (TStatus, Some Researching));
      ("s1", (TStatus, Some Planning));
      ("s1", (TStatus, Some Executing));
      ("s1", (TComplete, Some StepComplete)) ].
Proof.
  apply (stage_events_in_order env_ok _ w1 "Research X" "s1" (openai research)
           (research (research_query "Research X" "s1"))
           {| ic_title := "Research X"; ic_body := "findings" |});
    first [reflexivity | discriminate].
Defined.

Lemma failed_action_keeps_workflow_success_witness :
  exists params r,
    In (IssueCreation params (Return r))
       (effects_of env_post_fails
          (body (Some "Research X") (Some "s1") (Some "acme/widgets")) w1)
    /\ ar_error r = Some "GitHub API error: 422 - Validation Failed"
    /\ exists b,
         response_of env_post_fails
           (body (Some "Research X") (Some "s1") (Some "acme/widgets")) w1
         = Return {| http_status := 200; http_body := SuccessJson b |}
         /\ sb_success b = true
         /\ sb_actions b !! 0%nat = Some r
         /\ sb_actions b = [r]
         /\ successfulActions (sb_summary b) = 0%nat
         /\ githubIssueUrl (sb_summary b) = None.
Proof.
  eexists _, _.
  assert (In (IssueCreation _ (Return _))
            (effects_of env_post_fails
               (body (Some "Research X") (Some "s1") (Some "acme/widgets")) w1))
    as Hin by (vm_compute; do 6 right; left; reflexivity).
  split; [exact Hin|]. split; [reflexivity|].
  apply (failed_action_keeps_workflow_success _ _ _ _ _ Hin). reflexivity.
Defined.

Lemma one_terminal_event_witness :
  exists before last,
    published (effects_of env_research_fails
                 (body (Some "Research X") (Some "s1") None) w1)
    = before ++ [("s1", last)]
    /\ terminal last = true
    /\ Forall (fun p => fst p = "s1" /\ terminal (snd p) = false) before.
Proof.
  apply (one_terminal_event env_research_fails _ w1 "Research X" "s1");
    first [reflexivity | discriminate].
Defined.

Lemma research_failure_reported_witness :
  (exists t,
     response_of env_research_fails
       (body (Some "Research X") (Some "s1") None) w1
     = Return {| http_status := 500;
                 http_body := ErrorJson
                   {| eb_success := false;
                      eb_error := "Research and action workflow failed";
                      eb_details := "upstream unavailable";
                      eb_timestamp := t |} |})
  /\ (exists t1 t2 t3,
        published (effects_of env_research_fails
                     (body (Some "Research X") (Some "s1") None) w1)
        = [ ("s1", analyzing t1); ("s1", researching t2);
            ("s1", error_event "upstream unavailable" t3) ]).
Proof.
  apply (research_failure_reported env_research_fails _ w1 "s1"
           (research_query "Research X" "s1")
           (failed_research (research_query "Research X" "s1")));
    [ reflexivity | discriminate
    | vm_compute; do 2 right; left; reflexivity | reflexivity ].
Defined.

Lemma repository_descriptor_parsed_witness :
  exists params a res,
    In (IssueCreation params (Return a))
       (effects_of env_ok
          (body (Some "Research X") (Some "s1") (Some "acme/widgets")) w1)
    /\ ar_result a = Some res
    /\ gp_owner params = "acme" /\ gp_repo params = "widgets"
    /\ repository res = "acme/widgets".
Proof.
  eexists _, _, _.
  assert (In (IssueCreation _ (Return _))
            (effects_of env_ok
               (body (Some "Research X") (Some "s1") (Some "acme/widgets")) w1))
    as Hin by (vm_compute; do 6 right; left; reflexivity).
  split; [exact Hin|]. split; [reflexivity|].
  destruct (repository_descriptor_parsed _ _ _ _ _ Hin) as [Hform _].
  destruct (Hform "acme" "widgets") as (Ho & Hr & Hrepo);
    [reflexivity | reflexivity | reflexivity | discriminate |].
  split; [exact Ho|]. split; [exact Hr|].
  now apply (Hrepo _ _ eq_refl).
Defined.

Lemma complete_event_mirrors_response_witness :
  exists b before ev a,
    response_of env_ok
      (body (Some "Research X") (Some "s1") (Some "acme/widgets")) w1
    = Return {| http_status := 200; http_body := SuccessJson b |}
    /\ published (effects_of env_ok
                    (body (Some "Research X") (Some "s1") (Some "acme/widgets")) w1)
       = before ++ [("s1", ev)]
    /\ sse_type ev = TComplete
    /\ sse_result ev = Some {| sr_research := sb_research b;
                               sr_actions := sb_actions b |}
    /\ sb_actions b = [a]
    /\ ar_success a = true
    /\ githubIssueUrl (sb_summary b)
       = Some "https://github.com/passthrough/repos/acme/widgets/issues".
Proof.
  eexists.
  assert (response_of env_ok
            (body (Some "Research X") (Some "s1") (Some "acme/widgets")) w1
          = Return {| http_status := 200; http_body := SuccessJson _ |})
    as Hresp by (vm_compute; reflexivity).
  destruct (complete_event_mirrors_response env_ok
              (body (Some "Research X") (Some "s1") (Some "acme/widgets"))
              w1 "s1" _ eq_refl ltac:(discriminate) Hresp)
    as (before & ev & a & Hpub & Hty & Hres & _ & Hact & _ & _ & Hurl & _).
  exists before, ev, a.
  injection Hact as <-.
  destruct (Hurl eq_refl) as (res & Hr & Hu). injection Hr as <-.
  repeat split; assumption || reflexivity.
Defined.

Lemma generated_session_id_addresses_no_event_witness :
  published (effects_of env_ok (body (Some "Research X") None None) w1) = []
  /\ In (Researched (research_query "Research X" "session_1700000000001")
           (Return (research (research_query "Research X" "session_1700000000001"))))
        (effects_of env_ok (body (Some "Research X") None None) w1)
  /\ exists b,
       response_of env_ok (body (Some "Research X") None None) w1
       = Return {| http_status := 200; http_body := SuccessJson b |}
       /\ sb_sessionId b = "session_1700000000001".
Proof.
  destruct (generated_session_id_addresses_no_event env_ok
              (body (Some "Research X") None None) w1 eq_refl)
    as (Hnone & _ & _ & Hrun).
  split; [exact Hnone|].
  apply (Hrun "Research X" (openai research)
           (research (research_query "Research X" "session_1700000000001"))
           {| ic_title := "Research X"; ic_body := "findings" |});
    first [reflexivity | discriminate].
Defined.

Lemma createGitHubIssue_total_witness :
  exists r,
    createGitHubIssue Sample2.env_post_unsupported pica params w0
    = (Return r, tick w0)
    /\ ar_success r = false /\ ar_result r = None
    /\ exists msg, ar_error r = Some msg /\ msg <> "".
Proof.
  destruct (createGitHubIssue_total Sample2.env_post_unsupported pica params w0)
    as (r & Hr & _ & _ & Hko).
  - intros url data key e H _ _. injection H as <-. discriminate.
  - exists r. split; [exact Hr|].
    assert (ar_success r = false) as Hf
      by (injection Hr as <-; reflexivity).
    split; [exact Hf|]. exact (Hko Hf).
Defined.
End Instances.

(** * Further properties *)

(** ** The handler's answers *)

Ltac run_cases R :=
  inversion R as [Hrej Hresp Heff | q' done e' t t' Hq' Hqt Hstop Hresp Heff
                 | q' svc' sec rr' ic' ga at_call
                    t1 t2 t3 t4 t5 Hq' Hqt Hsvc' Hsec Hsect Hrr' Hnot Hic' Hga
                    Hresp Heff].

(** X1: the handler answers every request whose body was parsed and
    never raises on it: status 400 with the validation body exactly when
    the query is missing or empty, otherwise 200 with [success: true] or 500
    with [success: false].  On a request whose body was not parsed
    ([req.body] undefined) it gives no answer: the destructuring throws in
    the [try] block and again in the [catch] block, and the handler raises
    with nothing published and no collaborator called. *)
Theorem handler_answers_parsed_requests env req_body w :
  match req_body with
  | Some body =>
      exists resp,
        fst (research_and_action_request env req_body w) = Return resp
        /\ ((http_status resp = 400 /\ truthy (body_query body) = false
             /\ exists error details,
                  http_body resp = ValidationJson error details)
            \/ (http_status resp = 200 /\ truthy (body_query body) = true
                /\ exists b, http_body resp = SuccessJson b /\ sb_success b = true)
            \/ (http_status resp = 500 /\ truthy (body_query body) = true
                /\ exists b, http_body resp = ErrorJson b /\ eb_success b = false))
  | None =>
      exists error,
        research_and_action_request env req_body w = (Raise error, tick w)
  end.
Proof.
  destruct req_body as [body|]; [|eexists; reflexivity].
  cbn [research_and_action_request]. fold (response_of env body w).
  pose proof (run_shape env body w) as R. run_cases R.
  - eexists. split; [reflexivity|]. left. cbn. eauto.
  - eexists. split; [reflexivity|]. right. right. cbn. rewrite Hq'. eauto.
  - eexists. split; [reflexivity|]. right. left. cbn. rewrite Hq'. eauto.
Qed.

Lemma tags_notes sess l :
  tags (notes sess l) = addressed sess (tag <$> l).
Proof.
  destruct sess as [[|a s]|]; try reflexivity.
  unfold tags. rewrite published_notes_supplied. cbn.
  induction l as [|m l IH]; cbn; [reflexivity | now f_equal].
Qed.

Lemma tags_app t1 t2 : tags (t1 ++ t2) = tags t1 ++ tags t2.
Proof. unfold tags. now rewrite published_app, fmap_app. Qed.

Lemma tags_call e t :
  (forall sid m, e <> Published sid m) -> tags (e :: t) = tags t.
Proof. intros H. destruct e; try reflexivity. now destruct (H sessionId data). Qed.

Lemma addressed_app sess l1 l2 :
  addressed sess l1 ++ addressed sess l2 = addressed sess (l1 ++ l2).
Proof. destruct sess as [[|a s]|]; cbn; try reflexivity. now rewrite fmap_app. Qed.

Lemma tags_nil : tags [] = [].
Proof. reflexivity. Qed.

Ltac read_tags :=
  repeat first
    [ rewrite tags_app
    | rewrite tags_notes
    | rewrite tags_call by discriminate
    | rewrite tags_nil ];
  rewrite ?app_nil_r, ?app_nil_l;
  repeat rewrite addressed_app;
  cbn [fmap list_fmap tag sse_type sse_step analyzing researching planning
       executing status_message error_event complete_event app].

(** X2: when a service cannot be built (the OpenAI factory raises, or
    it returns and [PICA_SECRET] is missing or empty), a valid request is
    answered with 500 carrying that error's message, no collaborator is
    called and no status event is published: the only event is the error
    event, when the request has a session id. *)
Theorem setup_failure_stops_before_any_call env body w query e :
  body_query body = Some query -> query <> "" ->
  env_createOpenAIService env = Raise e
  \/ ((exists svc, env_createOpenAIService env = Return svc)
      /\ truthy (env_PICA_SECRET env) = false
      /\ e = Error "PICA_SECRET environment variable is required") ->
  invocations (effects_of env body w) = []
  /\ tags (effects_of env body w) = addressed (body_sessionId body) [(TError, None)]
  /\ exists t,
       response_of env body w
       = Return {| http_status := 500;
                   http_body := ErrorJson
                     {| eb_success := false;
                        eb_error := "Research and action workflow failed";
                        eb_details := err_message e;
                        eb_timestamp := t |} |}.
Proof.
  intros Hq Hqne Hsetup.
  pose proof (run_shape env body w) as R. run_cases R.
  - rewrite Hq in Hrej. now rewrite truthy_Some in Hrej.
  - assert (done = [] /\ e' = e) as [-> ->].
    { destruct Hsetup as [Ho | ((svc & Ho) & Hs & ->)];
        inversion Hstop; subst; try congruence; split; congruence. }
    split; [cbn; apply invocations_notes|].
    split; [cbn [app]; now rewrite tags_notes|]. eauto.
  - destruct Hsetup as [Ho | (_ & Hs & _)]; [congruence|].
    rewrite Hsec in Hs. congruence.
Qed.

(** X3: when the research call itself is rejected, the request is
    answered with 500 carrying the rejection's message, the research call is
    the only collaborator call, and the events are status/analyzing,
    status/researching and the error event (none without a session id). *)
Theorem research_rejection_reported env body w q e :
  In (Researched q (Raise e)) (effects_of env body w) ->
  invocations (effects_of env body w) = [Researched q (Raise e)]
  /\ tags (effects_of env body w)
     = addressed (body_sessionId body)
         [ (TStatus, Some Analyzing); (TStatus, Some Researching);
           (TError, None) ]
  /\ exists t,
       response_of env body w
       = Return {| http_status := 500;
                   http_body := ErrorJson
                     {| eb_success := false;
                        eb_error := "Research and action workflow failed";
                        eb_details := err_message e;
                        eb_timestamp := t |} |}.
Proof.
  intros Hin. apply in_invocations in Hin; [|discriminate].
  pose proof (run_shape env body w) as R. run_cases R;
    rewrite <- ?Heff in Hin.
  - destruct Hin.
  - inversion Hstop; subst; read_at Hin;
      repeat (destruct Hin as [Hin|Hin]; try discriminate Hin);
      try (now destruct Hin).
    injection Hin as <- <-.
    split; [read_goal; reflexivity|]. split; [read_tags; reflexivity|]. eauto.
  - read_at Hin.
    repeat (destruct Hin as [Hin|Hin]; try discriminate Hin); now destruct Hin.
Qed.

(** X4: when the formatting of the issue is rejected, the request is
    answered with 500 carrying the rejection's message, the issue creation
    is never called, and the events are status/analyzing,
    status/researching, status/planning and the error event (none without a
    session id). *)
Theorem formatting_rejection_reported env body w findings q e :
  In (Formatted findings q (Raise e)) (effects_of env body w) ->
  issue_calls (effects_of env body w) = []
  /\ tags (effects_of env body w)
     = addressed (body_sessionId body)
         [ (TStatus, Some Analyzing); (TStatus, Some Researching);
           (TStatus, Some Planning); (TError, None) ]
  /\ exists t,
       response_of env body w
       = Return {| http_status := 500;
                   http_body := ErrorJson
                     {| eb_success := false;
                        eb_error := "Research and action workflow failed";
                        eb_details := err_message e;
                        eb_timestamp := t |} |}.
Proof.
  intros Hin. apply in_invocations in Hin; [|discriminate].
  pose proof (run_shape env body w) as R. run_cases R;
    rewrite <- ?Heff in Hin.
  - destruct Hin.
  - inversion Hstop; subst; read_at Hin;
      repeat (destruct Hin as [Hin|Hin]; try discriminate Hin);
      try (now destruct Hin).
    injection Hin as <- <- <-.
    split.
    { unfold issue_calls. rewrite !omap_app.
      destruct (body_sessionId body) as [[|a s]|]; reflexivity. }
    split; [read_tags; reflexivity|]. eauto.
  - read_at Hin.
    repeat (destruct Hin as [Hin|Hin]; try discriminate Hin); now destruct Hin.
Qed.

(** X5: a 200 response carries the research result that the
    collaborator returned, its status is not [failed], and
    [summary.researchCompleted] is true exactly when that status is
    [completed]: a [pending] result goes through the whole pipeline and is
    answered with 200 and [researchCompleted: false]. *)
Theorem success_reports_research_status env body w b :
  response_of env body w
  = Return {| http_status := 200; http_body := SuccessJson b |} ->
  (exists q, In (Researched q (Return (sb_research b))) (effects_of env body w))
  /\ rr_status (sb_research b) <> Failed
  /\ (researchCompleted (sb_summary b) = true
      <-> rr_status (sb_research b) = Completed)
  /\ body_query body = Some (sm_query (sb_summary b)).
Proof.
  intros Hb. pose proof (run_shape env body w) as R. rewrite Hb in R.
  inversion R as [ | | q' svc' sec rr' ic' ga at_call
                    t1 t2 t3 t4 t5 Hq' Hqt Hsvc' Hsec Hsect Hrr' Hnot Hic' Hga
                    Hresp Heff].
  subst b. cbn. split; [|split; [exact Hnot|split; [|exact Hq']]].
  - eexists. apply in_app_iff. right. left. reflexivity.
  - destruct (rr_status rr'); cbn; split; congruence.
Qed.

(** X6: a request whose query is missing or empty makes no
    collaborator call.  For every other request the calls are a beginning
    of the pipeline, each made at most once and in this order: the research
    with the request's query; the formatting, only after a research result
    that is not failed, with that result's findings and the query; the issue
    creation, only after the formatting returned, with the title and body it
    returned. *)
Theorem collaborator_calls_follow_pipeline env body w :
  match body_query body with
  | Some (String _ _ as query) =>
      Pipeline query (invocations (effects_of env body w))
  | _ => invocations (effects_of env body w) = []
  end.
Proof.
  pose proof (run_shape env body w) as R. run_cases R.
  - now destruct (body_query body) as [[|c q]|].
  - rewrite Hq'. destruct q' as [|c q]; [discriminate Hqt|].
    inversion Hstop; subst; read_goal; rewrite ?app_nil_r;
      now constructor.
  - rewrite Hq'. destruct q' as [|c q]; [discriminate Hqt|].
    read_goal. now constructor.
Qed.

(** ** What reaches the streams *)

Lemma deliver_app env c t1 t2 :
  deliver env c (t1 ++ t2) = deliver env (deliver env c t1) t2.
Proof. apply foldl_app. Qed.

Lemma frames_for_app env sid t1 t2 :
  frames_for env sid (t1 ++ t2) = frames_for env sid t1 ++ frames_for env sid t2.
Proof. apply omap_app. Qed.

Lemma frames_for_other env sid s m t :
  String.eqb s sid = false ->
  frames_for env sid (Published s m :: t) = frames_for env sid t.
Proof. intros H. unfold frames_for. cbn [omap list_omap]. now rewrite H. Qed.

Lemma frames_for_call env sid e t :
  (forall s m, e <> Published s m) ->
  frames_for env sid (e :: t) = frames_for env sid t.
Proof. intros H. destruct e; try reflexivity. now destruct (H sessionId data). Qed.

Lemma relay_lookup sid sid' chunk (c : gmap string Response) :
  relay sid chunk c !! sid'
  = if String.eqb sid sid'
    then (fun client => fst (write client chunk)) <$> c !! sid'
    else c !! sid'.
Proof.
  unfold relay. destruct (String.eqb_spec sid sid') as [<-|Hne].
  - destruct (c !! sid) as [client|] eqn:E.
    + now rewrite lookup_insert_eq.
    + now rewrite E.
  - destruct (c !! sid) as [client|]; [|reflexivity].
    now rewrite lookup_insert_ne.
Qed.

(** A stream after a log has been relayed: its frames followed by the
    frames addressed to its session, or itself when it is not writable. *)
Lemma deliver_lookup env t : forall (c : gmap string Response) sid,
  deliver env c t !! sid
  = (fun client =>
       if res_writable client
       then {| res_writable := true;
               res_written := res_written client ++ frames_for env sid t |}
       else client) <$> c !! sid.
Proof.
  induction t as [|e t IH]; intros c sid.
  - cbn. destruct (c !! sid) as [[[] written]|]; cbn; [|reflexivity..].
    now rewrite app_nil_r.
  - change (deliver env c (e :: t))
      with (deliver env (deliver env c [e]) t).
    rewrite IH. destruct e as [s data| | |]; cbn; try reflexivity.
    rewrite relay_lookup.
    destruct (String.eqb s sid); [|reflexivity].
    destruct (c !! sid) as [[[] written]|]; cbn; [|reflexivity..].
    now rewrite <- app_assoc.
Qed.

Lemma relays_ret {A} env (a : A) : relays env (ret a).
Proof. intros w. exists []. cbn. now rewrite app_nil_r. Qed.

Lemma relays_throw {A} env e : relays env (@throw A e).
Proof. intros w. exists []. cbn. now rewrite app_nil_r. Qed.

Lemma relays_await {A} env (c : Completion A) : relays env (await c).
Proof. intros w. exists []. cbn. now rewrite app_nil_r. Qed.

Lemma relays_clock env : relays env (new_Date_toISOString env).
Proof. intros w. exists []. cbn. now rewrite app_nil_r. Qed.

Lemma relays_Date_now env : relays env (Date_now env).
Proof. intros w. exists []. cbn. now rewrite app_nil_r. Qed.

Lemma relays_bind {A B} env (m : M A) (k : A -> M B) :
  relays env m -> (forall a, relays env (k a)) -> relays env (bind m k).
Proof.
  intros Hm Hk w. unfold bind. destruct (Hm w) as (l1 & T1 & C1).
  destruct (m w) as [[a|e] w1]; cbn in *.
  - destruct (Hk a w1) as (l2 & T2 & C2). exists (l1 ++ l2).
    rewrite T2, T1, C2, C1, deliver_app. now rewrite app_assoc.
  - now exists l1.
Qed.

Lemma relays_try_catch {A} env (m : M A) (h : JsError -> M A) :
  relays env m -> (forall e, relays env (h e)) -> relays env (try_catch m h).
Proof.
  intros Hm Hh w. unfold try_catch. destruct (Hm w) as (l1 & T1 & C1).
  destruct (m w) as [[a|e] w1]; cbn in *.
  - now exists l1.
  - destruct (Hh e w1) as (l2 & T2 & C2). exists (l1 ++ l2).
    rewrite T2, T1, C2, C1, deliver_app. now rewrite app_assoc.
Qed.

Lemma relays_observed {A} env (mk : Completion A -> Effect) (m : M A) :
  (forall r sid data, mk r <> Published sid data) ->
  relays env m -> relays env (observed mk m).
Proof.
  intros Hmk Hm w. unfold observed. destruct (Hm w) as (l & T & C).
  destruct (m w) as [r w1]; cbn in *. exists (l ++ [mk r]).
  rewrite T, app_assoc. split; [reflexivity|].
  rewrite deliver_app, <- C. cbn.
  destruct (mk r) eqn:E; try reflexivity. now destruct (Hmk r sessionId data).
Qed.

Lemma relays_sendSSEUpdate env sid data : relays env (sendSSEUpdate env sid data).
Proof.
  intros w. exists [Published sid data]. now rewrite sendSSEUpdate_eq.
Qed.

Ltac relays_step :=
  first
    [ apply relays_ret | apply relays_throw | apply relays_await
    | apply relays_clock | apply relays_Date_now | apply relays_sendSSEUpdate
    | apply relays_observed; [discriminate|]
    | apply relays_bind; [|intros ?]
    | apply relays_try_catch; [|intros ?]
    | match goal with
      | |- relays _ (match ?x with _ => _ end) => destruct x
      end ].

Lemma relays_createGitHubIssue env this params :
  relays env (createGitHubIssue env this params).
Proof.
  unfold createGitHubIssue, getGitHubConnection. repeat relays_step.
Qed.

Lemma stream_after_app env sid before l1 l2 :
  stream_after env sid (stream_after env sid before l1) l2
  = stream_after env sid before (l1 ++ l2).
Proof.
  destruct before as [[[] written]|]; cbn; try reflexivity.
  now rewrite frames_for_app, app_assoc.
Qed.

Lemma stream_after_silent env sid before l :
  frames_for env sid l = [] -> stream_after env sid before l = before.
Proof.
  intros Hnone. unfold stream_after. rewrite Hnone.
  destruct before as [[[] written]|]; cbn; try reflexivity.
  now rewrite app_nil_r.
Qed.

Lemma relays_on_all {A} env sid (m : M A) : relays env m -> relays_on env sid m.
Proof.
  intros Hm w. destruct (Hm w) as (l & T & C). exists l.
  split; [exact T|]. rewrite C. apply deliver_lookup.
Qed.

Lemma relays_on_bind {A B} env sid (m : M A) (k : A -> M B) :
  relays_on env sid m -> (forall a, relays_on env sid (k a)) ->
  relays_on env sid (bind m k).
Proof.
  intros Hm Hk w. unfold bind. destruct (Hm w) as (l1 & T1 & C1).
  destruct (m w) as [[a|e] w1]; cbn in *.
  - destruct (Hk a w1) as (l2 & T2 & C2). exists (l1 ++ l2).
    rewrite T2, T1, C2, C1, stream_after_app. now rewrite app_assoc.
  - now exists l1.
Qed.

Lemma relays_on_try_catch {A} env sid (m : M A) (h : JsError -> M A) :
  relays_on env sid m -> (forall e, relays_on env sid (h e)) ->
  relays_on env sid (try_catch m h).
Proof.
  intros Hm Hh w. unfold try_catch. destruct (Hm w) as (l1 & T1 & C1).
  destruct (m w) as [[a|e] w1]; cbn in *.
  - now exists l1.
  - destruct (Hh e w1) as (l2 & T2 & C2). exists (l1 ++ l2).
    rewrite T2, T1, C2, C1, stream_after_app. now rewrite app_assoc.
Qed.

Lemma relays_on_observed {A} env sid (mk : Completion A -> Effect) (m : M A) :
  (forall r s data, mk r <> Published s data) ->
  relays_on env sid m -> relays_on env sid (observed mk m).
Proof.
  intros Hmk Hm w. unfold observed. destruct (Hm w) as (l & T & C).
  destruct (m w) as [r w1]; cbn in *. exists (l ++ [mk r]).
  rewrite T, app_assoc. split; [reflexivity|].
  rewrite C, <- stream_after_app. symmetry. apply stream_after_silent.
  destruct (mk r) eqn:E; try reflexivity. now destruct (Hmk r sessionId data).
Qed.

Lemma relays_on_suspended {A} env sid (meanwhile : World -> World) (m : M A) :
  quiet env sid meanwhile -> relays_on env sid m ->
  relays_on env sid (suspended meanwhile m).
Proof.
  intros Hq Hm w. unfold suspended.
  destruct (Hq w) as (l1 & T1 & C1). cbn in T1, C1.
  destruct (Hm (meanwhile w)) as (l2 & T2 & C2). exists (l1 ++ l2).
  rewrite T2, T1, C2, C1, stream_after_app. now rewrite app_assoc.
Qed.

Ltac relays_on_step :=
  first
    [ apply relays_on_all;
      first [ apply relays_ret | apply relays_throw | apply relays_await
            | apply relays_clock | apply relays_Date_now
            | apply relays_sendSSEUpdate | apply relays_createGitHubIssue ]
    | apply relays_on_observed; [discriminate|]
    | apply relays_on_suspended; [assumption|]
    | apply relays_on_bind; [|intros ?]
    | apply relays_on_try_catch; [|intros ?]
    | match goal with
      | |- relays_on _ _ (match ?x with _ => _ end) => destruct x
      end ].

Lemma relays_on_research_and_action_during env others body sid :
  quiet env sid (during_research others) ->
  quiet env sid (during_formatting others) ->
  quiet env sid (during_issue others) ->
  relays_on env sid (research_and_action_during env others body).
Proof.
  intros Hr Hf Hi.
  unfold research_and_action_during, handler_try_during, handler_catch,
    publish_if, createOpenAIService, createPicaService.
  cbv zeta.
  repeat relays_on_step.
Qed.

(** With nothing happening in the pauses the run is the handler's. *)
Lemma undisturbed_run env body :
  research_and_action_during env idle body = research_and_action env body.
Proof. reflexivity. Qed.

(** What may happen in a pause. *)
Lemma quiet_idle env sid : quiet env sid (fun w => w).
Proof. intros w. exists []. cbn. rewrite app_nil_r. split; [reflexivity|].
  destruct (sseClients w !! sid) as [[[] written]|]; cbn; try reflexivity.
  now rewrite app_nil_r.
Qed.

Lemma quiet_publish env sid other data :
  quiet env sid (fun w => snd (sendSSEUpdate env other data w)).
Proof.
  intros w. destruct (relays_on_all env sid _ (relays_sendSSEUpdate env other data) w)
    as (l & T & C).
  now exists l.
Qed.

Lemma quiet_unchanged env sid (meanwhile : World -> World) :
  (forall w, trace (meanwhile w) = trace w) ->
  (forall w, sseClients (meanwhile w) !! sid = sseClients w !! sid) ->
  quiet env sid meanwhile.
Proof.
  intros Ht Hc w. exists []. cbn. rewrite Ht, Hc, app_nil_r.
  split; [reflexivity|].
  destruct (sseClients w !! sid) as [[[] written]|]; cbn; try reflexivity.
  now rewrite app_nil_r.
Qed.

Lemma quiet_connect_other env sid other :
  other <> sid -> quiet env sid (fun w => snd (sse_connect env other w)).
Proof.
  intros Hne. apply quiet_unchanged; [reflexivity|].
  intros w. now apply sse_connect_other.
Qed.

Lemma quiet_close_other env sid other :
  other <> sid -> quiet env sid (fun w => snd (sse_close other w)).
Proof.
  intros Hne. apply quiet_unchanged; [reflexivity|].
  intros w. cbn. now apply lookup_delete_ne.
Qed.

(** X7: what a run of the handler does to a stream, with the rest of
    the server running while the handler is suspended in its three
    [await]s.  Provided that in those pauses no stream is opened or closed
    under a session id (publishing to it and anything under other ids is
    allowed), the stream registered under that id holds, after the run, its
    earlier frames followed by one frame for each event published to the id
    since the run began, in the order of publication; a stream that is not
    writable is left as it was; and an id without a stream has none
    after. *)
Theorem stream_holds_published_frames env others body sid w :
  quiet env sid (during_research others) ->
  quiet env sid (during_formatting others) ->
  quiet env sid (during_issue others) ->
  let w' := snd (research_and_action_during env others body w) in
  sseClients w' !! sid
  = match sseClients w !! sid with
    | Some client =>
        Some (if res_writable client
              then {| res_writable := true;
                      res_written :=
                        res_written client
                          ++ frames_for env sid (effects_since w w') |}
              else client)
    | None => None
    end.
Proof.
  intros Hr Hf Hi. cbv zeta.
  destruct (relays_on_research_and_action_during env others body sid Hr Hf Hi w)
    as (l & T & C).
  rewrite (effects_since_app _ _ _ T), C.
  now destruct (sseClients w !! sid).
Qed.

(** ** Connections of the event stream *)

Lemma sendSSEUpdate_unregistered env sid data w :
  sseClients w !! sid = None ->
  snd (sendSSEUpdate env sid data w) = log (Published sid data) w.
Proof.
  intros Hw. rewrite sendSSEUpdate_eq. cbn. unfold relay. rewrite Hw.
  now destruct w.
Qed.

(** X8: opening a stream under a session id that is not registered
    and closing it again leaves the registry exactly as it was; in general
    the pair removes whatever was registered under the id. *)
Theorem connect_then_close_restores_registry env sid w :
  sseClients w !! sid = None ->
  sseClients (snd (sse_close sid (snd (sse_connect env sid w)))) = sseClients w.
Proof.
  intros Hfree. cbn. rewrite !delete_insert_eq. now apply delete_id.
Qed.

(** X9: a second connection under the same session id replaces the
    first: the registered stream starts afresh with the [connected] frame
    alone, whatever had been delivered before.  The close handler removes
    the entry by id, so when the earlier connection closes after that, the
    id is unregistered although the later connection is open, and events
    published to it are dropped. *)
Theorem reconnect_replaces_and_close_unregisters env sid data w :
  let w2 :=
    snd (sse_connect env sid
           (snd (sendSSEUpdate env sid data (snd (sse_connect env sid w))))) in
  let w3 := snd (sse_close sid w2) in
  (exists ts,
     sseClients w2 !! sid
     = Some {| res_writable := true;
               res_written :=
                 [sse_frame env
                    {| sse_type := TConnected; sse_step := None;
                       sse_message := Some "Connected to research stream";
                       sse_result := None; sse_timestamp := ts |}] |})
  /\ sseClients w3 !! sid = None
  /\ snd (sendSSEUpdate env sid data w3) = log (Published sid data) w3.
Proof.
  cbv zeta. split; [apply sse_connect_registers|].
  assert (forall v, sseClients (snd (sse_close sid v)) !! sid = None) as Hclosed
    by (intros v; cbn; apply lookup_delete_eq).
  split; [apply Hclosed|].
  apply sendSSEUpdate_unregistered, Hclosed.
Qed.

(** ** The Pica service *)

(** What the lookup of the GitHub connection gives, by the answer of the
    client: it never raises and leaves the state alone. *)
Lemma getGitHubConnection_eq env this w :
  getGitHubConnection env this w
  = (Return
       match env_client_get env (secret (config this))
               "/vault/connections?platform=github" with
       | Return {| rows := Some (row :: _) |} =>
           Some {| connectionKey := row_key row; platform := row_platform row |}
       | Return _ => None
       | Raise e =>
           if status_is e 401
           then Some {| connectionKey := "mcp-fallback"; platform := "github" |}
           else None
       end, w).
Proof.
  unfold getGitHubConnection, try_catch, bind, await, ret.
  destruct (env_client_get env _ _) as [[[[|row l]|]]|e]; cbn; try reflexivity.
  now destruct (status_is e 401).
Qed.

Ltac issue_cases env this :=
  unfold createGitHubIssue, try_catch, bind;
  rewrite getGitHubConnection_eq;
  destruct (env_client_get env (secret (config this))
              "/vault/connections?platform=github")
    as [[[[|row l]|]]|e0] eqn:Hget; cbn -[String.eqb];
  try (destruct (status_is e0 401) eqn:H401; cbn -[String.eqb]).

(** X10: [createGitHubIssue] reports success exactly when the lookup
    returned at least one row, the key of the first row is not the
    placeholder "mcp-fallback", and the passthrough call
    [POST /passthrough/repos/<owner>/<repo>/issues], sent with that key,
    the title, the body and the labels research and ai-generated, returned.
    The result then holds the number and URL of the created issue, the
    title, and "<owner>/<repo>" as repository. *)
Theorem createGitHubIssue_success_iff env this params w :
  exists r,
    createGitHubIssue env this params w = (Return r, tick w)
    /\ (ar_success r = true <->
        exists row rest created,
          env_client_get env (secret (config this))
            "/vault/connections?platform=github"
          = Return {| rows := Some (row :: rest) |}
          /\ row_key row <> "mcp-fallback"
          /\ env_client_post env (secret (config this)) (issues_url params)
               (issue_data params) (row_key row) = Return created
          /\ ar_result r
             = Some {| issueNumber := number created;
                       issueUrl := html_url created;
                       ir_title := gp_title params;
                       repository := gp_owner params +:+ "/" +:+ gp_repo params |}).
Proof.
  issue_cases env this.
  all: try solve
    [ eexists; (split; [reflexivity|]); cbn;
      (split; [discriminate | intros (? & ? & ? & ? & _); discriminate]) ].
  destruct (String.eqb_spec (row_key row) "mcp-fallback") as [Hk|Hk];
    cbn -[String.eqb].
  - eexists. split; [reflexivity|]. cbn.
    split; [discriminate|]. intros (row' & rest & created & [= <- _] & Hne & _).
    contradiction.
  - fold (issues_url params). fold (issue_data params).
    destruct (env_client_post env _ _ _ _) as [created|e] eqn:Hpost; cbn.
    + eexists. split; [reflexivity|]. cbn. split; [|reflexivity].
      intros _. exists row, l, created. now repeat split.
    + eexists. split; [reflexivity|]. cbn. split; [discriminate|].
      intros (row' & rest & created & [= <- _] & _ & Hp & _). congruence.
Qed.

(** X11: without a usable connection [createGitHubIssue] does not
    send the passthrough call at all: its outcome is the same whatever
    [client.post] would do.  It reports a failure, with the guidance to
    check the API key and the GitHub connection when the lookup was answered
    with 401 (or returned the placeholder key), and with "No GitHub
    connection found ..." when the lookup failed otherwise or returned no
    row. *)
Theorem createGitHubIssue_without_connection env this params w post :
  (forall row rest,
     env_client_get env (secret (config this))
       "/vault/connections?platform=github"
     = Return {| rows := Some (row :: rest) |} ->
     row_key row = "mcp-fallback") ->
  createGitHubIssue (set_client_post post env) this params w
  = createGitHubIssue env this params w
  /\ exists r,
       createGitHubIssue env this params w = (Return r, tick w)
       /\ ar_success r = false /\ ar_result r = None
       /\ ar_error r
          = Some
              (match env_client_get env (secret (config this))
                       "/vault/connections?platform=github" with
               | Return {| rows := Some (_ :: _) |} =>
                   "Pica API authentication issue. Please check your API key at https://app.picaos.com/settings/api-keys and ensure GitHub is connected at https://app.picaos.com/connections"
               | Return _ =>
                   "No GitHub connection found. Please connect GitHub in your Pica dashboard at: https://app.picaos.com/connections"
               | Raise e =>
                   if status_is e 401
                   then "Pica API authentication issue. Please check your API key at https://app.picaos.com/settings/api-keys and ensure GitHub is connected at https://app.picaos.com/connections"
                   else "No GitHub connection found. Please connect GitHub in your Pica dashboard at: https://app.picaos.com/connections"
               end).
Proof.
  intros Hkey.
  unfold createGitHubIssue, try_catch, bind.
  rewrite !getGitHubConnection_eq.
  change (env_client_get (set_client_post post env)) with (env_client_get env).
  destruct (env_client_get env (secret (config this))
              "/vault/connections?platform=github")
    as [[[[|row l]|]]|e0] eqn:Hget; cbn -[String.eqb];
    try (destruct (status_is e0 401) eqn:H401; cbn -[String.eqb]);
    try (split; [reflexivity | eexists; repeat split]).
  rewrite (Hkey row l eq_refl). cbn.
  split; [reflexivity | eexists; repeat split].
Qed.

(** X12: when the passthrough call is rejected, the failure is
    reported by kind: a response with status 401 as an authentication
    failure, a response with status 404 as "Repository <owner>/<repo> not
    found or not accessible.", any other response as "GitHub API error:
    <status> - <message>" with the response's message or, without one, its
    status text, and a request without response as a network error. *)
Theorem createGitHubIssue_reports_rejection env this params w row rest e :
  env_client_get env (secret (config this)) "/vault/connections?platform=github"
  = Return {| rows := Some (row :: rest) |} ->
  row_key row <> "mcp-fallback" ->
  env_client_post env (secret (config this)) (issues_url params)
    (issue_data params) (row_key row) = Raise e ->
  exists r,
    createGitHubIssue env this params w = (Return r, tick w)
    /\ ar_success r = false /\ ar_result r = None
    /\ (forall resp, err_response e = Some resp -> er_status resp = 401 ->
          ar_error r
          = Some "Authentication failed. Please check your Pica API key and GitHub connection.")
    /\ (forall resp, err_response e = Some resp -> er_status resp = 404 ->
          ar_error r
          = Some ("Repository " +:+ gp_owner params +:+ "/" +:+ gp_repo params
                    +:+ " not found or not accessible."))
    /\ (forall resp, err_response e = Some resp ->
          er_status resp <> 401 -> er_status resp <> 404 ->
          ar_error r
          = Some ("GitHub API error: " +:+ pretty (er_status resp) +:+ " - "
                    +:+ or_else (er_data_message resp) (er_statusText resp)))
    /\ (err_response e = None -> err_request e = true ->
          ar_error r = Some "Network error: Unable to reach GitHub API via Pica").
Proof.
  intros Hget Hk Hpost.
  unfold createGitHubIssue, try_catch, bind.
  rewrite getGitHubConnection_eq, Hget. cbn -[String.eqb].
  apply String.eqb_neq in Hk. rewrite Hk. cbn.
  fold (issues_url params). fold (issue_data params). rewrite Hpost. cbn.
  eexists. split; [reflexivity|]. cbn. unfold failure_message.
  repeat split.
  - intros resp -> ->. reflexivity.
  - intros resp -> ->. reflexivity.
  - intros resp -> H1 H4.
    apply Z.eqb_neq in H1, H4. now rewrite H1, H4.
  - intros -> ->. reflexivity.
Qed.

(** X13: [executeAction] never raises.  For "github_issue" it returns
    what [createGitHubIssue] returns.  For every other action type it
    reports success, with platform "pica" and the message "<type> executed
    successfully", and it does so without consulting anything but the clock.
    So a failure it reports always comes from the GitHub issue creation. *)
Theorem executeAction_outcome be {P} (as_issue : P -> GitHubIssueParams)
    this actionType (params : P) w :
  exists r,
    executeAction be as_issue this actionType params w = (Return r, tick w)
    /\ (actionType = "github_issue" ->
        exists a,
          createGitHubIssue (be_env be) this (as_issue params) w
          = (Return a, tick w)
          /\ r = of_action_result a)
    /\ (actionType <> "github_issue" ->
        r = {| ea_type := actionType; ea_platform := "pica";
               ea_success := true;
               ea_result := Some (MessagePayload
                                    (actionType +:+ " executed successfully")
                                    params);
               ea_error := None;
               ea_timestamp :=
                 env_toISOString (be_env be) (env_now (be_env be) (clock w)) |})
    /\ (ea_success r = false ->
        actionType = "github_issue" /\ ea_platform r = "github"
        /\ is_Some (ea_error r)).
Proof.
  unfold executeAction, try_catch, bind.
  destruct (String.eqb_spec actionType "github_issue") as [->|Hne].
  - destruct (createGitHubIssue_gated (be_env be) this (as_issue params) w)
      as (a & Ha & Hok & Hko).
    rewrite Ha. cbn. eexists. split; [reflexivity|].
    split; [intros _; eauto|]. split; [congruence|].
    cbn. intros Hf. destruct (Hko Hf) as (_ & msg & Hmsg & _).
    split; [reflexivity|]. split; [|rewrite Hmsg; eauto].
    revert Ha. unfold createGitHubIssue, try_catch, bind.
    rewrite getGitHubConnection_eq.
    destruct (env_client_get _ _ _) as [[[[|row l]|]]|e0]; cbn -[String.eqb];
      try (destruct (status_is e0 401); cbn -[String.eqb]);
      try (destruct (String.eqb _ "mcp-fallback"); cbn);
      try (destruct (env_client_post _ _ _ _ _); cbn);
      intros [= <-]; reflexivity.
  - cbn. eexists. split; [reflexivity|].
    split; [congruence|]. split; [reflexivity|]. discriminate.
Qed.

(** X14: [listGitHubRepositories] never raises and leaves the state
    alone; every failure (no connection, a rejected call, a falsy body) is
    answered with the empty list.  A non-empty list is exactly the body of
    [GET /passthrough/users/<owner>/repos], called with the key of the
    connection the lookup gave; after a lookup answered with 401 that key is
    the placeholder "mcp-fallback", and the call is made all the same. *)
Theorem listGitHubRepositories_never_fails be this owner w :
  exists repos,
    listGitHubRepositories be this owner w = (Return repos, w)
    /\ (repos <> [] ->
        exists connection,
          getGitHubConnection (be_env be) this w = (Return (Some connection), w)
          /\ be_get_repos be (secret (config this))
               ("/passthrough/users/" +:+ owner +:+ "/repos")
               (connectionKey connection)
             = Return (Some repos))
    /\ (forall e,
          env_client_get (be_env be) (secret (config this))
            "/vault/connections?platform=github" = Raise e ->
          status_is e 401 = true ->
          repos = match be_get_repos be (secret (config this))
                          ("/passthrough/users/" +:+ owner +:+ "/repos")
                          "mcp-fallback" with
                  | Return (Some l) => l
                  | _ => []
                  end).
Proof.
  unfold listGitHubRepositories, try_catch, bind.
  rewrite getGitHubConnection_eq.
  destruct (env_client_get (be_env be) (secret (config this))
              "/vault/connections?platform=github")
    as [[[[|row l]|]]|e0] eqn:Hget; cbn;
    try (destruct (status_is e0 401) eqn:H401; cbn);
    try (destruct (be_get_repos be _ _ _) as [[repos|]|e1] eqn:Hrepos; cbn);
    eexists; (split; [reflexivity|]);
    (split; [intros Hne; try (now destruct Hne); eauto
            | intros e He H; try discriminate He;
              injection He as <-; try congruence; try reflexivity]).
Qed.

(** X15: [GET /github/repos/:owner] never raises.  It answers 500
    only when [PICA_SECRET] is missing or empty.  Otherwise it answers 200
    with [success: true] whatever Pica and GitHub do: the list is the body
    of the repositories call when the lookup gave a connection and that
    call returned a body, and the empty list in every other case (no
    connection, a rejected call, a falsy body). *)
Theorem github_repos_masks_failures be owner w :
  exists reply,
    github_repos be owner w = (Return reply, w)
    /\ match env_PICA_SECRET (be_env be) with
       | Some (String _ _ as secret) =>
           let this :=
             {| config := {| secret := secret;
                             serverUrl := Some "https://api.picaos.com/v1" |} |} in
           reply
           = {| reply_status := 200;
                reply_body :=
                  ReposOk
                    match fst (getGitHubConnection (be_env be) this w) with
                    | Return (Some connection) =>
                        match be_get_repos be secret
                                ("/passthrough/users/" +:+ owner +:+ "/repos")
                                (connectionKey connection) with
                        | Return (Some repos) => repos
                        | _ => []
                        end
                    | _ => []
                    end |}
       | _ =>
           reply = {| reply_status := 500;
                      reply_body :=
                        ReposFailed "Failed to fetch repositories"
                          "PICA_SECRET environment variable is required" |}
       end.
Proof.
  unfold github_repos, try_catch, bind, createPicaService.
  destruct (env_PICA_SECRET (be_env be)) as [[|c s]|]; cbn -[getGitHubConnection];
    try (eexists; split; reflexivity).
  unfold listGitHubRepositories, try_catch, bind.
  rewrite getGitHubConnection_eq. cbn [fst].
  destruct (env_client_get (be_env be) _ _) as [[[[|row l]|]]|e0]; cbn;
    try (destruct (status_is e0 401); cbn);
    try (destruct (be_get_repos be _ _ _) as [[repos|]|e1]; cbn);
    eexists; split; reflexivity.
Qed.

(** X16: [getConnections] lists one connection per row, in order,
    named by the row's name or, without one, by its platform, and with
    status connected or disconnected, never error.  A call answered with
    401 gives the empty list; any other failure is raised again as an error
    whose message is "Failed to get connections: " followed by the
    original message. *)
Theorem getConnections_outcome be this w :
  match be_get_vault_connections be (secret (config this)) with
  | Return rows =>
      exists connections,
        getConnections be this w = (Return connections, w)
        /\ pc_id <$> connections = vr_id <$> rows
        /\ pc_platform <$> connections = vr_platform <$> rows
        /\ Forall2 (fun conn row =>
                      pc_name conn = or_else (vr_name row) (vr_platform row)
                      /\ (pc_status conn = Connected <-> vr_active row = true)
                      /\ (pc_status conn = Disconnected <-> vr_active row = false))
             connections rows
  | Raise e =>
      getConnections be this w
      = (if status_is e 401 then Return []
         else Raise (Error ("Failed to get connections: " +:+ err_message e)), w)
  end.
Proof.
  unfold getConnections, try_catch, bind, await, ret, throw.
  destruct (be_get_vault_connections be _) as [rows|e]; cbn.
  - eexists. split; [reflexivity|].
    rewrite <- !list_fmap_compose. repeat split.
    induction rows as [|row rows IH]; cbn; constructor; [|exact IH].
    unfold to_connection at 1; cbn.
    destruct (vr_active row); repeat split; intros; first [reflexivity | discriminate].
  - now destruct (status_is e 401).
Qed.

(** ** The connection test *)

Lemma testConnection_eq be this w :
  testConnection be this w
  = (Return match be_get_available_connectors be (secret (config this)) with
            | Return _ => true
            | Raise _ => false
            end, w).
Proof.
  unfold testConnection, try_catch, bind, await, ret.
  now destruct (be_get_available_connectors be _).
Qed.

Ltac probe be :=
  unfold test_connections, try_catch, bind, createOpenAIService,
    createPicaService, await, getConnections;
  repeat (first
            [ progress (repeat match goal with
                               | H : _ = _ |- _ => rewrite H
                               end)
            | rewrite testConnection_eq
            | rewrite getGitHubConnection_eq ];
          cbn -[String.eqb]).

(** X17: when Pica answers every call with 401, the connection test
    still answers 200, and its report says that Pica is not reachable, lists
    no connection, and yet says that GitHub is connected
    ([github: true], "Connected", "GitHub integration ready"): the lookup
    turns the 401 into the placeholder connection. *)
Theorem test_connections_unauthorized be w svc c s ok e1 e2 e3 :
  env_createOpenAIService (be_env be) = Return svc ->
  env_PICA_SECRET (be_env be) = Some (String c s) ->
  be_openai_testConnection be = Return ok ->
  be_get_available_connectors be (String c s) = Raise e1 ->
  be_get_vault_connections be (String c s) = Raise e2 ->
  status_is e2 401 = true ->
  env_client_get (be_env be) (String c s) "/vault/connections?platform=github"
  = Raise e3 ->
  status_is e3 401 = true ->
  exists report,
    test_connections be w
    = (Return {| reply_status := 200; reply_body := TestOk report |}, w)
    /\ cr_pica report = false
    /\ picaConnections report = []
    /\ cr_github report = true
    /\ githubConnectionKey report = "Connected"
    /\ note_github report = "GitHub integration ready".
Proof.
  intros Hsvc Hsecret Hok H1 H2 H2s H3 H3s.
  probe be. eexists. split; [reflexivity|]. now repeat split.
Qed.

(** X18: when the list of connections fails with anything but a 401,
    the GitHub connection is not looked up: the report lists no connection
    and says that GitHub is not connected, whether or not a GitHub
    connection exists, and the route still answers 200. *)
Theorem test_connections_listing_failure be w svc c s ok e :
  env_createOpenAIService (be_env be) = Return svc ->
  env_PICA_SECRET (be_env be) = Some (String c s) ->
  be_openai_testConnection be = Return ok ->
  be_get_vault_connections be (String c s) = Raise e ->
  status_is e 401 = false ->
  exists report,
    test_connections be w
    = (Return {| reply_status := 200; reply_body := TestOk report |}, w)
    /\ cr_openai report = ok
    /\ picaConnections report = []
    /\ cr_github report = false
    /\ githubConnectionKey report = "Not connected"
    /\ note_github report = "Connect GitHub at https://app.picaos.com/connections".
Proof.
  intros Hsvc Hsecret Hok Hlist H401.
  probe be. eexists. split; [reflexivity|]. now repeat split.
Qed.

(** X19: the connection test never raises, and it answers 200
    exactly when both services can be built and the OpenAI probe settles
    with a value; no failure of Pica makes it answer 500.  In a 200
    report, [pica] is true exactly when [GET /available-connectors]
    returned, and a GitHub key shown as "Connected" goes with
    [github: true]. *)
Theorem test_connections_status be w :
  exists reply,
    test_connections be w = (Return reply, w)
    /\ (reply_status reply = 200 \/ reply_status reply = 500)
    /\ (reply_status reply = 200 <->
        (exists svc, env_createOpenAIService (be_env be) = Return svc)
        /\ truthy (env_PICA_SECRET (be_env be)) = true
        /\ exists ok, be_openai_testConnection be = Return ok)
    /\ (forall report,
          reply_body reply = TestOk report ->
          (cr_pica report = true <->
           be_get_available_connectors be
             (default "" (env_PICA_SECRET (be_env be))) = Return tt)
          /\ (githubConnectionKey report = "Connected" ->
              cr_github report = true)).
Proof.
  unfold test_connections, try_catch, bind, createOpenAIService,
    createPicaService, await, getConnections.
  destruct (env_createOpenAIService (be_env be)) as [svc|e0] eqn:Hsvc; cbn;
    [destruct (env_PICA_SECRET (be_env be)) as [[|c s]|] eqn:Hsecret; cbn;
     [| destruct (be_openai_testConnection be) as [ok|e1] eqn:Hok; cbn |] |].
  2:{ rewrite testConnection_eq. cbn.
      destruct (be_get_vault_connections be _) as [rows|e2]; cbn;
        try (destruct (status_is e2 401); cbn);
        rewrite ?getGitHubConnection_eq; cbn;
        (eexists; split; [reflexivity|]; cbn;
         split; [now left|]; split; [split; eauto|];
         intros report [= <-]; cbn; split;
         [ destruct (be_get_available_connectors be _) as [[]|];
           split; congruence
         | ]);
        try discriminate;
        destruct (env_client_get _ _ _) as [[[[|row l]|]]|e3]; cbn;
        try (destruct (status_is e3 401); cbn); try discriminate; reflexivity. }
  all: eexists; split; [reflexivity|]; cbn;
    (split; [now right|]); (split; [|intros report Hr; discriminate Hr]);
    (split; [discriminate|]);
    intros ((svc' & Hs) & Ht & (ok' & Ho)); congruence.
Qed.

(** ** The client's reading of the handler's answer *)

(** X20: what [performResearchAndAction] makes of each answer of the
    handler.  It accepts exactly the 200 answers.  Every other answer is
    turned into an [Error] whose message is never empty: the validation
    text for 400; for 500 the failure's own message or, when that is empty,
    "Research and action workflow failed". *)
Theorem client_error_is_never_empty env body w :
  exists resp,
    response_of env body w = Return resp
    /\ (http_status resp = 200 ->
        performResearchAndAction_reads (http_body resp) = Return tt)
    /\ (http_status resp <> 200 ->
        exists error,
          performResearchAndAction_reads (http_body resp) = Raise error
          /\ err_message error <> ""
          /\ (http_status resp = 400 ->
              err_message error = "Please provide a research query")
          /\ (http_status resp = 500 ->
              exists b, http_body resp = ErrorJson b
                /\ err_message error
                   = if String.eqb (eb_details b) ""
                     then "Research and action workflow failed"
                     else eb_details b))
    /\ (performResearchAndAction_reads (http_body resp) = Return tt ->
        http_status resp = 200).
Proof.
  pose proof (run_shape env body w) as R. run_cases R.
  - eexists. split; [reflexivity|]. cbn.
    split; [discriminate|]. split; [|discriminate].
    intros _. eexists. split; [reflexivity|]. cbn.
    split; [discriminate|]. split; [reflexivity|discriminate].
  - eexists. split; [reflexivity|]. cbn.
    split; [discriminate|]. split; [|discriminate].
    intros _.
    destruct (err_message e') as [|c s]; cbn;
      eexists; (split; [reflexivity|]); cbn;
      (split; [discriminate|]); (split; [discriminate|]);
      intros _; eexists; (split; [reflexivity|]); reflexivity.
  - eexists. split; [reflexivity|]. cbn.
    split; [reflexivity|]. split; [intros H; now destruct H | reflexivity].
Qed.

(** ** More closed instances *)

Module MoreInstances.
Import Sample Sample2.

Lemma setup_failure_stops_before_any_call_witness :
  invocations (effects_of env_no_secret
                 (body (Some "Research X") (Some "s1") None) w1) = []
  /\ tags (effects_of env_no_secret
             (body (Some "Research X") (Some "s1") None) w1)
     = [("s1", (TError, None))]
  /\ exists t,
       response_of env_no_secret (body (Some "Research X") (Some "s1") None) w1
       = Return {| http_status := 500;
                   http_body := ErrorJson
                     {| eb_success := false;
                        eb_error := "Research and action workflow failed";
                        eb_details := "PICA_SECRET environment variable is required";
                        eb_timestamp := t |} |}.
Proof.
  apply (setup_failure_stops_before_any_call env_no_secret
           (body (Some "Research X") (Some "s1") None) w1 "Research X"
           (Error "PICA_SECRET environment variable is required"));
    [ reflexivity | discriminate | ].
  right. split; [eexists; reflexivity|]. split; reflexivity.
Defined.

Lemma research_rejection_reported_witness :
  tags (effects_of env_research_raises
          (body (Some "Research X") (Some "s1") None) w1)
  = [ ("s1", (TStatus, Some Analyzing)); ("s1", (TStatus, Some Researching));
      ("s1", (TError, None)) ]
  /\ exists t,
       response_of env_research_raises
         (body (Some "Research X") (Some "s1") None) w1
       = Return {| http_status := 500;
                   http_body := ErrorJson
                     {| eb_success := false;
                        eb_error := "Research and action workflow failed";
                        eb_details := "timeout";
                        eb_timestamp := t |} |}.
Proof.
  assert (In (Researched (research_query "Research X" "s1") (Raise (Error "timeout")))
            (effects_of env_research_raises
               (body (Some "Research X") (Some "s1") None) w1))
    as Hin by (vm_compute; do 2 right; left; reflexivity).
  destruct (research_rejection_reported _ _ _ _ _ Hin) as (_ & Htags & Hresp).
  split; [exact Htags | exact Hresp].
Defined.

Lemma formatting_rejection_reported_witness :
  issue_calls (effects_of env_formatting_fails
                 (body (Some "Research X") (Some "s1") None) w1) = []
  /\ tags (effects_of env_formatting_fails
             (body (Some "Research X") (Some "s1") None) w1)
     = [ ("s1", (TStatus, Some Analyzing)); ("s1", (TStatus, Some Researching));
         ("s1", (TStatus, Some Planning)); ("s1", (TError, None)) ]
  /\ exists t,
       response_of env_formatting_fails
         (body (Some "Research X") (Some "s1") None) w1
       = Return {| http_status := 500;
                   http_body := ErrorJson
                     {| eb_success := false;
                        eb_error := "Research and action workflow failed";
                        eb_details := "rate limited";
                        eb_timestamp := t |} |}.
Proof.
  assert (In (Formatted "findings" "Research X" (Raise (Error "rate limited")))
            (effects_of env_formatting_fails
               (body (Some "Research X") (Some "s1") None) w1))
    as Hin by (vm_compute; do 4 right; left; reflexivity).
  exact (formatting_rejection_reported _ _ _ _ _ _ Hin).
Defined.

Lemma success_reports_research_status_witness :
  exists b,
    response_of env_pending (body (Some "Research X") None None) w0
    = Return {| http_status := 200; http_body := SuccessJson b |}
    /\ rr_status (sb_research b) = Pending
    /\ (researchCompleted (sb_summary b) = true
        <-> rr_status (sb_research b) = Completed).
Proof.
  eexists.
  assert (response_of env_pending (body (Some "Research X") None None) w0
          = Return {| http_status := 200; http_body := SuccessJson _ |})
    as Hresp by (vm_compute; reflexivity).
  split; [exact Hresp|]. split; [reflexivity|].
  exact (proj1 (proj2 (proj2 (success_reports_research_status _ _ _ _ Hresp)))).
Defined.

Lemma connect_then_close_restores_registry_witness :
  sseClients (snd (sse_close "s2" (snd (sse_connect env_ok "s2" w1))))
  = sseClients w1.
Proof.
  apply (connect_then_close_restores_registry env_ok "s2" w1).
  vm_compute. reflexivity.
Defined.

Lemma createGitHubIssue_without_connection_witness :
  createGitHubIssue
    (set_client_post (fun _ url _ _ => Return {| html_url := url; number := 1 |})
       env_unauthorized) pica params w0
  = createGitHubIssue env_unauthorized pica params w0
  /\ exists r,
       createGitHubIssue env_unauthorized pica params w0 = (Return r, tick w0)
       /\ ar_success r = false
       /\ ar_error r
          = Some "Pica API authentication issue. Please check your API key at https://app.picaos.com/settings/api-keys and ensure GitHub is connected at https://app.picaos.com/connections".
Proof.
  destruct (createGitHubIssue_without_connection env_unauthorized pica params w0
              (fun _ url _ _ => Return {| html_url := url; number := 1 |}))
    as (Hsame & r & Hr & Hf & _ & Herr).
  - intros row rest H. discriminate H.
  - split; [exact Hsame|]. exists r. split; [exact Hr|]. split; [exact Hf|].
    exact Herr.
Defined.

Lemma createGitHubIssue_reports_rejection_witness :
  exists r,
    createGitHubIssue env_post_not_found pica params w0 = (Return r, tick w0)
    /\ ar_success r = false
    /\ ar_error r = Some "Repository acme/widgets not found or not accessible.".
Proof.
  destruct (createGitHubIssue_reports_rejection env_post_not_found pica params w0
              {| row_key := "live::github::key"; row_platform := "github" |}
              [] not_found)
    as (r & Hr & Hf & _ & _ & H404 & _);
    [ reflexivity | discriminate | reflexivity | ].
  exists r. split; [exact Hr|]. split; [exact Hf|].
  exact (H404 _ eq_refl eq_refl).
Defined.

Lemma test_connections_unauthorized_witness :
  exists report,
    test_connections backend_unauthorized w0
    = (Return {| reply_status := 200; reply_body := TestOk report |}, w0)
    /\ cr_pica report = false
    /\ picaConnections report = []
    /\ cr_github report = true
    /\ githubConnectionKey report = "Connected"
    /\ note_github report = "GitHub integration ready".
Proof.
  apply (test_connections_unauthorized backend_unauthorized w0
           (openai research) "s" "k_test" true
           unauthorized unauthorized unauthorized);
    reflexivity.
Defined.

Lemma test_connections_listing_failure_witness :
  exists report,
    test_connections backend_listing_fails w0
    = (Return {| reply_status := 200; reply_body := TestOk report |}, w0)
    /\ cr_openai report = true
    /\ picaConnections report = []
    /\ cr_github report = false
    /\ githubConnectionKey report = "Not connected"
    /\ note_github report = "Connect GitHub at https://app.picaos.com/connections".
Proof.
  apply (test_connections_listing_failure backend_listing_fails w0
           (openai research) "s" "k_test" true server_error);
    reflexivity.
Defined.

Lemma stream_holds_published_frames_witness :
  tags (effects_since w1 after_busy_run)
  = [ ("s1", (TStatus, Some Analyzing)); ("s1", (TStatus, Some Researching));
      ("s1", (TStatus, Some Planning)); ("s1", (TError, None));
      ("s1", (TStatus, Some Executing));
      ("s1", (TComplete, Some StepComplete)) ]
  /\ sseClients after_busy_run !! "s2" = None
  /\ exists greeting,
       sseClients w1 !! "s1"
       = Some {| res_writable := true; res_written := [greeting] |}
       /\ sseClients after_busy_run !! "s1"
          = Some {| res_writable := true;
                    res_written :=
                      greeting
                        :: frames_for env_ok "s1"
                             (effects_since w1 after_busy_run) |}.
Proof.
  split; [vm_compute; reflexivity|]. split; [vm_compute; reflexivity|].
  eexists. split; [vm_compute; reflexivity|].
  unfold after_busy_run.
  rewrite (stream_holds_published_frames env_ok busy
             (body (Some "Research X") (Some "s1") None) "s1" w1).
  - reflexivity.
  - apply quiet_connect_other. discriminate.
  - apply quiet_publish.
  - apply quiet_close_other. discriminate.
Defined.

End MoreInstances.

(** ** Sessions do not interfere *)

(** X21: the three operations on the registry act on one session id
    only: opening a stream under an id, closing it, or publishing to it
    leaves the stream registered under any other id exactly as it was. *)
Theorem sessions_do_not_interfere env sid other data w :
  sid <> other ->
  sseClients (snd (sse_connect env sid w)) !! other = sseClients w !! other
  /\ sseClients (snd (sse_close sid w)) !! other = sseClients w !! other
  /\ sseClients (snd (sendSSEUpdate env sid data w)) !! other
     = sseClients w !! other.
Proof.
  intros Hne. split; [now apply sse_connect_other|]. split.
  - cbn. now apply lookup_delete_ne.
  - rewrite sendSSEUpdate_eq. cbn. rewrite relay_lookup.
    apply String.eqb_neq in Hne. now rewrite Hne.
Qed.

Module IsolationInstance.
Import Sample.

Lemma sessions_do_not_interfere_witness :
  sseClients (snd (sse_connect env_ok "s2" w1)) !! "s1" = sseClients w1 !! "s1"
  /\ sseClients (snd (sse_close "s2" w1)) !! "s1" = sseClients w1 !! "s1"
  /\ sseClients
       (snd (sendSSEUpdate env_ok "s2" (error_event "lost" "t") w1)) !! "s1"
     = sseClients w1 !! "s1".
Proof.
  apply (sessions_do_not_interfere env_ok "s2" "s1" (error_event "lost" "t") w1).
  discriminate.
Defined.

End IsolationInstance.
